(** * Headline_Score: the scoring service and its dashboard client

    A shallow embedding of [score_headlines_api.py] (the FastAPI service) and
    of [score_headlines_streamlit.py] (the Streamlit client: its [score]
    function first, the rest of its page after), with the properties the
    specification states about them and further properties of the code.

    Python values are embedded as follows.
    - A [str] is the list of its Unicode code points.
    - A handler runs in a state-and-exception monad [Eff]: the state is the
      trace of the effects performed so far (log records, calls to the
      models, HTTP requests, widgets drawn), the result is either a returned
      value or a raised exception.
    - The pretrained models and the HTTP transport are third-party code: they
      are parameters of the embedding, functions from their arguments to a
      returned value or a raised exception. *)

From Stdlib Require Import ZArith NArith Lia Ascii String.
From stdpp Require Import base decidable option list gmap strings pretty.

Local Open Scope Z_scope.

(** ** Python values, exceptions and effects *)

Module Py.

(** [str]: a sequence of code points. *)
Definition str : Type := list N.

(** An ASCII literal of the source, as a [str]. *)
Definition lit (s : string) : str :=
  Ascii.N_of_ascii <$> String.list_ascii_of_string s.

(** [bool(x)] for a list or a [str]: true exactly when it has an element. *)
Definition truthy {A : Type} (l : list A) : bool :=
  match l with
  | [] => false
  | _ :: _ => true
  end.

(** The code points [str.strip()] removes: those for which CPython's
    [Py_UNICODE_ISSPACE] holds. *)
Definition isspace (c : N) : bool :=
  ((9 <=? c) && (c <=? 13) || (28 <=? c) && (c <=? 32)
   || (c =? 133) || (c =? 160) || (c =? 5760)
   || (8192 <=? c) && (c <=? 8202)
   || (c =? 8232) || (c =? 8233) || (c =? 8239) || (c =? 8287)
   || (c =? 12288))%N.

Fixpoint lstrip (s : str) : str :=
  match s with
  | [] => []
  | c :: s' => if isspace c then lstrip s' else s
  end.

Definition rstrip (s : str) : str := reverse (lstrip (reverse s)).

(** [s.strip()]: leading and trailing whitespace removed. *)
Definition strip (s : str) : str := rstrip (lstrip s).

(** [d.get(k, default)] on a dict. *)
Definition dict_get {K V : Type} `{Countable K}
    (d : gmap K V) (k : K) (dflt : V) : V :=
  default dflt (d !! k).

(** The values that cross the HTTP boundary as JSON, and that the client
    keeps in its session state. *)
#[warnings="-register-all"]
Inductive value : Type :=
  | VNone
  | VBool (b : bool)
  | VInt (z : Z)
  | VStr (s : str)
  | VList (l : list value)
  | VDict (d : gmap str value).

(** The exceptions that occur in the two programs. [NonException] stands for
    the subclasses of [BaseException] that are not subclasses of [Exception]
    ([KeyboardInterrupt], [SystemExit]). *)
#[warnings="-register-all"]
Inductive py_exception : Type :=
  | HTTPException (status_code : Z) (detail : str)
  | RuntimeError (message : str) (cause : option py_exception)
  | RequestException (message : str)
  | AttributeError (message : str)
  | OtherException (message : str)
  | NonException (message : str).

(** [isinstance(e, Exception)]: what [except Exception] catches. *)
Definition isinstance_Exception (e : py_exception) : bool :=
  match e with
  | NonException _ => false
  | _ => true
  end.

(** [isinstance(e, requests.exceptions.RequestException)]. *)
Definition isinstance_RequestException (e : py_exception) : bool :=
  match e with
  | RequestException _ => true
  | _ => false
  end.

(** [str(e)], as the f-strings of the client render an exception. *)
Definition exc_str (e : py_exception) : str :=
  match e with
  | HTTPException status_code detail =>
      lit (pretty status_code) ++ lit ": " ++ detail
  | RuntimeError message _ => message
  | RequestException message => message
  | AttributeError message => message
  | OtherException message => message
  | NonException message => message
  end.

(** What running a piece of code ends in. *)
Inductive outcome (A : Type) : Type :=
  | Returned (a : A)
  | Raised (e : py_exception).
Arguments Returned {A} a.
Arguments Raised {A} e.

Section Eff.
Context {St : Type}.

(** A computation over the state [St] that may raise. *)
Definition Eff (A : Type) : Type := St → outcome A * St.

Definition ret {A : Type} (a : A) : Eff A := λ s, (Returned a, s).

Definition raise {A : Type} (e : py_exception) : Eff A :=
  λ s, (Raised e, s).

Definition bind {A B : Type} (m : Eff A) (k : A → Eff B) : Eff B :=
  λ s, match m s with
       | (Returned a, s') => k a s'
       | (Raised e, s') => (Raised e, s')
       end.

(** The outcome of a third-party call, carried into the computation. *)
Definition lift {A : Type} (r : outcome A) : Eff A := λ s, (r, s).

Definition modify (f : St → St) : Eff () := λ s, (Returned (), f s).

(** [try: body except C as e: handler e], where [catches e] says whether
    [e] is an instance of [C]. *)
Definition try_except {A : Type} (body : Eff A)
    (catches : py_exception → bool) (handler : py_exception → Eff A)
    : Eff A :=
  λ s, match body s with
       | (Returned a, s') => (Returned a, s')
       | (Raised e, s') =>
           if catches e then handler e s' else (Raised e, s')
       end.

(** [with cm: body], for a context manager that does [enter] and, whatever
    [body] ends in, [leave]. *)
Definition with_ {A : Type} (enter leave : St → St) (body : Eff A)
    : Eff A :=
  λ s, let '(r, s') := body (enter s) in (r, leave s').
End Eff.
Arguments Eff : clear implicits.

(** [Eff St] with stdpp's monad notations: [x ← m; k] and [m;; k]. *)
#[global] Instance Eff_ret {St : Type} : MRet (Eff St) := @ret St.
#[global] Instance Eff_bind {St : Type} : MBind (Eff St) :=
  λ A B k m, bind m k.

End Py.

Import Py.

(** ** The inference service: [score_headlines_api.py] *)

Module Api.

(** The levels of the [logging] calls the module makes. *)
Inductive level : Type := INFO | WARNING | ERROR | CRITICAL.

(** An argument of a log record's format string. *)
Inductive log_arg : Type :=
  | ArgInt (n : Z)
  | ArgExc (e : py_exception).

Section Service.
(** One embedding: a row of the array [EMBEDDER.encode] returns. *)
Context {vector : Type}.

(** What the module does to the world outside it, in order. *)
Inductive event : Type :=
  | Logged (lvl : level) (fmt : str) (args : list log_arg)
  | JoblibLoad (path : str)
  | SentenceTransformerLoad (name : str)
  | Encode (sentences : list str)
  | Predict (X : list vector)
  | RouteAdded (method path : str).

Definition trace : Type := list event.

Definition emit (ev : event) : Eff trace () := modify (λ t, t ++ [ev]).

Definition logging_info (fmt : str) (args : list log_arg) : Eff trace () :=
  emit (Logged INFO fmt args).
Definition logging_warning (fmt : str) (args : list log_arg)
    : Eff trace () :=
  emit (Logged WARNING fmt args).
Definition logging_error (fmt : str) (args : list log_arg) : Eff trace () :=
  emit (Logged ERROR fmt args).
Definition logging_critical (fmt : str) (args : list log_arg)
    : Eff trace () :=
  emit (Logged CRITICAL fmt args).

(** A call into third-party code: recorded, then its outcome. *)
Definition call {A : Type} (ev : event) (r : outcome A) : Eff trace A :=
  emit ev;; lift r.

(** The sentence-embedding model: [encode] maps a batch of sentences to an
    array with a row per embedding, or raises. *)
Record Embedder : Type := { encode : list str → outcome (list vector) }.

(** The classifier: [predict] maps an array of embeddings to an array of
    class codes, or raises. *)
Record Classifier : Type := { predict : list vector → outcome (list Z) }.

(** The module's globals once the models are loaded. *)
Record globals : Type := {
  CLASSIFIER : Classifier;
  EMBEDDER : Embedder
}.

(** The request body of [POST /score_headlines]. *)
Record HeadlineRequest : Type := { headlines : list str }.

Definition LABELS : gmap Z str :=
  {[ 0 := lit "Pessimistic"; 1 := lit "Neutral"; 2 := lit "Optimistic" ]}.

(** [LABELS.get(label, "Unknown")]. *)
Definition LABELS_get (label : Z) : str :=
  dict_get LABELS label (lit "Unknown").

(** The module's top-level statements: the models are loaded inside
    [try ... except Exception], then the two routes are registered by the
    decorators of the handlers. (Configuring [logging] and creating the
    application object, which come first, touch nothing that is observed
    here.) *)
Definition module_init
    (joblib_load : str → outcome Classifier)
    (SentenceTransformer : str → outcome Embedder) : Eff trace globals :=
  g ← try_except
        (logging_info (lit "Loading model---...") [];;
         classifier ← call (JoblibLoad (lit "svm.joblib"))
                           (joblib_load (lit "svm.joblib"));
         embedder ← call (SentenceTransformerLoad (lit "all-MiniLM-L6-v2"))
                         (SentenceTransformer (lit "all-MiniLM-L6-v2"));
         logging_info (lit "Models loaded successfully.") [];;
         mret {| CLASSIFIER := classifier; EMBEDDER := embedder |})
        isinstance_Exception
        (λ e,
           logging_critical (lit "Failed to load models: %s") [ArgExc e];;
           raise (RuntimeError (lit "Model loading failed.") (Some e)));
  emit (RouteAdded (lit "GET") (lit "/status"));;
  emit (RouteAdded (lit "POST") (lit "/score_headlines"));;
  mret g.

(** [GET /status]. *)
Definition get_status : Eff trace value :=
  logging_info (lit "GET /status request received.") [];;
  mret (VDict {[ lit "status" := VStr (lit "OK") ]}).

(** [POST /score_headlines]. *)
Definition score_headlines (g : globals) (request : HeadlineRequest)
    : Eff trace value :=
  let headlines := headlines request in
  logging_info
    (lit "POST /score_headlines request received. Number of headlines: %d")
    [ArgInt (Z.of_nat (length headlines))];;
  if negb (truthy headlines) then
    logging_warning (lit "Received empty headline list.") [];;
    raise (HTTPException 400 (lit "No headlines provided."))
  else
    try_except
      (embeddings ← call (Encode headlines)
                         (encode (EMBEDDER g) headlines);
       predictions ← call (Predict embeddings)
                          (predict (CLASSIFIER g) embeddings);
       let labels := (λ label, LABELS_get label) <$> predictions in
       mret (VDict {[ lit "labels" := VList (VStr <$> labels) ]}))
      isinstance_Exception
      (λ exc,
         logging_error (lit "Error during prediction: %s") [ArgExc exc];;
         raise (HTTPException 500 (lit "Internal server error."))).
End Service.

Arguments event : clear implicits.
Arguments trace : clear implicits.
Arguments Embedder : clear implicits.
Arguments Classifier : clear implicits.
Arguments globals : clear implicits.

End Api.

(** ** The dashboard client: [score] of [score_headlines_streamlit.py] *)

Module Client.

(** A [requests.Response]: the status line, the body as text, and what
    [response.json()] gives for that body. *)
Record Response : Type := {
  status_code : Z;
  text : str;
  json : outcome value
}.

(** [response.ok]: [raise_for_status()] does not raise, which it does
    exactly for a status code from 400 up to 599. *)
Definition ok (response : Response) : bool :=
  negb ((400 <=? status_code response) && (status_code response <? 600)).

(** What [score] does on the page and on the network, in order. [Post]
    carries the arguments of [requests.post]; [data] is the value whose
    [json.dumps] text is the request body. *)
Inductive effect : Type :=
  | Warning (body : str)
  | Error (body : str)
  | Toast (body : str)
  | SpinnerShown (body : str)
  | SpinnerHidden
  | Post (url : str) (data : value) (headers : list (str * str))
         (timeout : Z).

(** The client's world: [st.session_state] and the effects so far. *)
Record world : Type := {
  session_state : gmap string value;
  effects : list effect
}.

Definition perform (e : effect) : Eff world () :=
  modify (λ w, {| session_state := session_state w;
                  effects := effects w ++ [e] |}).

Definition st_warning (body : str) : Eff world () := perform (Warning body).
Definition st_error (body : str) : Eff world () := perform (Error body).
Definition st_toast (body : str) : Eff world () := perform (Toast body).

(** [with st.spinner(body): ...]. *)
Definition st_spinner {A : Type} (body : str) (block : Eff world A)
    : Eff world A :=
  with_
    (λ w, {| session_state := session_state w;
             effects := effects w ++ [SpinnerShown body] |})
    (λ w, {| session_state := session_state w;
             effects := effects w ++ [SpinnerHidden] |})
    block.

(** [st.session_state.<attr> = v]. *)
Definition set_session (attr : string) (v : value) : Eff world () :=
  modify (λ w, {| session_state := <[attr := v]> (session_state w);
                  effects := effects w |}).

(** [obj.get(key, default)] on a decoded JSON body: a dict lookup, and an
    [AttributeError] on the values that have no [get]. *)
Definition value_get (obj : value) (key : str) (dflt : value)
    : outcome value :=
  match obj with
  | VDict d => Returned (dict_get d key dflt)
  | _ => Raised (AttributeError (lit "object has no attribute 'get'"))
  end.

Section Score.
(** [requests.post(url, data=..., headers=..., timeout=...)]. *)
Variable requests_post :
  str → value → list (str * str) → Z → outcome Response.

Definition score (backend_url : str) (rows : list str)
    : Eff world value :=
  let payload_rows : list str :=
    strip <$> List.filter (λ r, truthy (strip r)) rows in
  if negb (truthy payload_rows) then
    st_warning (lit "Add at least one non-empty headline.");;
    mret VNone
  else
    try_except
      (let url := backend_url ++ lit "/score_headlines" in
       let data :=
         VDict {[ lit "headlines" := VList (VStr <$> payload_rows) ]} in
       let headers := [(lit "Content-Type", lit "application/json")] in
       response ← st_spinner (lit "Scoring" ++ [8230%N])
                    (perform (Post url data headers 30);;
                     lift (requests_post url data headers 30));
       if negb (ok response) then
         st_error (lit "API error " ++ lit (pretty (status_code response))
                   ++ lit ": " ++ text response);;
         mret VNone
       else
         body ← lift (json response);
         labels ← lift (value_get body (lit "labels") (VList []));
         set_session "used_rows" (VList (VStr <$> payload_rows));;
         set_session "results" labels;;
         st_toast (lit "Scored");;
         mret labels)
      isinstance_RequestException
      (λ exc,
         st_error (lit "Request failed: " ++ exc_str exc);;
         mret VNone).
End Score.

End Client.

(** ** Observations on a run, and sample models *)

(** A string [str.strip()] reduces to the empty string: every code point of
    it is whitespace. *)
Definition blank (r : str) : bool := forallb isspace r.

(** The rows that are not blank, each trimmed, in the order of [rows]. *)
Definition trimmed_non_blank (rows : list str) : list str :=
  strip <$> List.filter (λ r, negb (blank r)) rows.

Module Observe.
Import Api Client.

Section Service.
Context {vector : Type}.

(** The events that are invocations of the embedder or the classifier. *)
Definition is_model_call (ev : event vector) : bool :=
  match ev with
  | Encode _ | Predict _ => true
  | _ => false
  end.

Definition model_calls (t : trace vector) : list (event vector) :=
  List.filter is_model_call t.

(** The events that register a route of the application. *)
Definition is_route (ev : event vector) : bool :=
  match ev with
  | RouteAdded _ _ => true
  | _ => false
  end.

Definition routes (t : trace vector) : list (event vector) :=
  List.filter is_route t.

(** The log record every [POST /score_headlines] starts with. *)
Definition request_logged (hs : list str) : event vector :=
  Logged INFO
    (lit "POST /score_headlines request received. Number of headlines: %d")
    [ArgInt (Z.of_nat (length hs))].
End Service.

(** The four strings a label can be. *)
Definition label_names : list str :=
  [lit "Pessimistic"; lit "Neutral"; lit "Optimistic"; lit "Unknown"].

(** The body of a successful [POST /score_headlines] response. *)
Definition labels_body (labels : list str) : value :=
  VDict {[ lit "labels" := VList (VStr <$> labels) ]}.

(** The HTTP requests among the client's effects. *)
Definition is_post (e : effect) : bool :=
  match e with
  | Post _ _ _ _ => true
  | _ => false
  end.

Definition posts (l : list effect) : list effect := List.filter is_post l.

(** The inline errors among the client's effects. *)
Definition is_error (e : effect) : bool :=
  match e with
  | Error _ => true
  | _ => false
  end.

Definition errors (l : list effect) : list effect := List.filter is_error l.

(** The arguments [score] gives to [requests.post] for a payload. *)
Definition score_url (backend_url : str) : str :=
  backend_url ++ lit "/score_headlines".
Definition score_data (payload_rows : list str) : value :=
  VDict {[ lit "headlines" := VList (VStr <$> payload_rows) ]}.
Definition score_headers : list (str * str) :=
  [(lit "Content-Type", lit "application/json")].

(** The request that [score] makes for a payload, as an effect. *)
Definition score_request (backend_url : str) (payload_rows : list str)
    : effect :=
  Post (score_url backend_url) (score_data payload_rows) score_headers 30.

(** What [score] shows around its one request: the spinner, the request
    for the trimmed non-blank rows, the spinner gone. *)
Definition requested (backend_url : str) (rows : list str) : list effect :=
  [SpinnerShown (lit "Scoring" ++ [8230%N]);
   score_request backend_url (trimmed_non_blank rows);
   SpinnerHidden].

(** A request failed: the transport raised a [RequestException], or the
    response carries a client or server error status. *)
Definition post_failed (r : outcome Response) : Prop :=
  match r with
  | Raised e => isinstance_RequestException e = true
  | Returned response => 400 ≤ status_code response < 600
  end.

(** A world with more effects, the session state as it was. *)
Definition shown (w : world) (l : list effect) : world :=
  {| session_state := session_state w; effects := effects w ++ l |}.
End Observe.

(** Sample models and transports, for running the embedding on concrete
    inputs. An embedding is a single integer here. *)
Module Sample.
Import Api Client.

(** Embeds a sentence as its length, classifies an embedding by its residue
    modulo 5 (so codes outside the label table occur). *)
Definition embedder : Embedder Z :=
  {| encode := λ l, Returned ((λ h, Z.of_nat (length h)) <$> l) |}.
Definition classifier : Classifier Z :=
  {| predict := λ X, Returned ((λ v, v `mod` 5) <$> X) |}.
Definition models : globals Z :=
  {| CLASSIFIER := classifier; EMBEDDER := embedder |}.

(** An embedder that fails. *)
Definition embedder_down : Embedder Z :=
  {| encode := λ _, Raised (OtherException (lit "CUDA out of memory")) |}.

(** A backend that answers every request with the given status and body. *)
Definition backend (status : Z) (body : outcome value)
    : str → value → list (str * str) → Z → outcome Response :=
  λ _ _ _ _, Returned {| status_code := status; text := []; json := body |}.

(** A backend that cannot be reached. *)
Definition unreachable
    : str → value → list (str * str) → Z → outcome Response :=
  λ _ _ _ _, Raised (RequestException (lit "Connection refused")).

Definition empty_world : world :=
  {| session_state := ∅; effects := [] |}.

(** The service with an embedder that fails. *)
Definition models_embedder_down : globals Z :=
  {| CLASSIFIER := classifier; EMBEDDER := embedder_down |}.

(** A batch of headlines: the rows the dashboard starts with. *)
Definition batch : list str :=
  [lit "Stocks sink on inflation jitters";
   lit "Company beats earnings expectations";
   lit "Oil prices fall amid weak demand"].

(** A batch of strings of whitespace only: a space, and a tab and a space. *)
Definition blank_batch : list str := [lit " "; [9; 32]%N].

(** A [joblib.load] that finds no file, and a [SentenceTransformer] that
    loads. *)
Definition joblib_load_missing : str → outcome (Classifier Z) :=
  λ _, Raised (OtherException (lit "No such file or directory")).
Definition SentenceTransformer_loaded : str → outcome (Embedder Z) :=
  λ _, Returned embedder.

(** The address of the service, as the dashboard proposes it. *)
Definition DEFAULT_BACKEND_URL : str := lit "http://localhost:8013".
End Sample.

(** ** The rest of the dashboard: the page of [score_headlines_streamlit.py]

    Streamlit runs the script once per interaction. What the user did is
    read off the widgets: the values they return in one run are the
    [inputs] of that run. The widgets drawn to obtain them are not recorded;
    the notices, the requests and the results table are. *)

Module Page.
Import Client.

(** The code points at which [str.splitlines()] breaks a line: those for
    which CPython's [Py_UNICODE_ISLINEBREAK] holds. *)
Definition islinebreak (c : N) : bool :=
  ((10 <=? c) && (c <=? 13) || (28 <=? c) && (c <=? 30)
   || (c =? 133) || (c =? 8232) || (c =? 8233))%N.

(** The scan of [splitlines]: [line] holds, last first, the code points of
    the line being read. A carriage return followed by a line feed is one
    break; a break at the very end opens no further line. *)
Fixpoint splitlines_from (line : str) (s : str) : list str :=
  match s with
  | [] => match line with
          | [] => []
          | _ :: _ => [reverse line]
          end
  | c :: s' =>
      if islinebreak c then
        reverse line ::
          match s' with
          | d :: s'' =>
              if ((c =? 13) && (d =? 10))%N then splitlines_from [] s''
              else splitlines_from [] s'
          | [] => splitlines_from [] s'
          end
      else splitlines_from (c :: line) s'
  end.

(** [s.splitlines()]. *)
Definition splitlines (s : str) : list str := splitlines_from [] s.

(** [bool(v)]. *)
Definition truth (v : value) : bool :=
  match v with
  | VNone => false
  | VBool b => b
  | VInt z => negb (z =? 0)
  | VStr s => truthy s
  | VList l => truthy l
  | VDict d => negb (bool_decide (d = ∅))
  end.

(** [v == "OK"]-style comparison of a value with a [str]. *)
Definition eq_str (v : value) (s : str) : bool :=
  match v with
  | VStr s' => bool_decide (s' = s)
  | _ => false
  end.

(** A list of [str] as a value, and back. *)
Definition of_rows (rows : list str) : value := VList (VStr <$> rows).

Definition as_rows (v : value) : option (list str) :=
  match v with
  | VList l =>
      mapM (λ x, match x with VStr s => Some s | _ => None end) l
  | _ => None
  end.

(** [attr in st.session_state]. *)
Definition has_session (attr : string) : Eff world bool :=
  λ w, (Returned (bool_decide (is_Some (session_state w !! attr))), w).

(** [st.session_state.<attr>]: an [AttributeError] when it was never set. *)
Definition get_session (attr : string) : Eff world value :=
  λ w, match session_state w !! attr with
       | Some v => (Returned v, w)
       | None =>
           (Raised (AttributeError
                      (lit "st.session_state has no attribute"
                       ++ lit (String " " attr))), w)
       end.

(** [st.session_state.rows], where the rows are read as a list of [str].
    The page assigns nothing else to [rows] ([rows_typed] below is an
    invariant of every function of the page); a run from a state where it
    holds something else is not described and ends here. *)
Definition session_rows : Eff world (list str) :=
  v ← get_session "rows";
  match as_rows v with
  | Some rows => mret rows
  | None => raise (OtherException (lit "rows is not a list of str"))
  end.

(** What one run of the script reads from its widgets. *)
Record inputs : Type := {
  backend_url_input : str;        (* the text input "FastAPI URL" *)
  check_api : bool;               (* the button "Check API" *)
  reset_app : bool;               (* the button "Reset App" *)
  pasted : str;                   (* the text area "One headline per line" *)
  replace_from_paste : bool;      (* the button "Replace from paste" *)
  load_sample : bool;             (* the button "Load sample" *)
  row_text : nat → str → str;     (* the text input of row [index], given
                                     the row's text as its initial value *)
  row_delete : nat → bool;        (* the delete button of row [index] *)
  add_headline : bool;            (* the button "Add headline" *)
  clear_all : bool;               (* the button "Clear all" *)
  score_button : bool             (* the button "Score headlines" *)
}.

Definition init_session : Eff world () :=
  has_rows ← has_session "rows";
  (if negb has_rows then
     set_session "rows"
       (of_rows [lit "Stocks sink on inflation jitters";
                 lit "Company beats earnings expectations";
                 lit "Oil prices fall amid weak demand"])
   else mret ());;
  has_results ← has_session "results";
  (if negb has_results then set_session "results" VNone else mret ());;
  has_used_rows ← has_session "used_rows";
  (if negb has_used_rows then set_session "used_rows" VNone else mret ()).

Definition bulk_paste_controls (i : inputs) : Eff world () :=
  (if replace_from_paste i then
     let lines : list str :=
       strip <$> List.filter (λ x, truthy (strip x))
                   (splitlines (pasted i)) in
     set_session "rows" (of_rows lines);;
     set_session "results" VNone;;
     set_session "used_rows" VNone
   else mret ());;
  (if load_sample i then
     set_session "rows"
       (of_rows [lit "Fed hints at holding rates steady";
                 lit "Tech shares rally after earnings beat";
                 lit "Geopolitical tensions rattle markets";
                 lit "Retail sales surprise to the upside"]);;
     set_session "results" VNone;;
     set_session "used_rows" VNone
   else mret ()).

(** The loop of [editable_rows], from row [index] on: the text of each row
    that is not deleted, as its text input returns it. *)
Fixpoint updated_rows (i : inputs) (index : nat) (rows : list str)
    : list str :=
  match rows with
  | [] => []
  | text_value :: rows' =>
      let new_value := row_text i index text_value in
      if negb (row_delete i index)
      then new_value :: updated_rows i (S index) rows'
      else updated_rows i (S index) rows'
  end.

Definition editable_rows (i : inputs) : Eff world () :=
  rows ← session_rows;
  set_session "rows" (of_rows (updated_rows i 0 rows)).

(** [st.session_state.rows.append("")]: among the values, lists alone have
    an [append]. *)
Definition rows_append_empty : Eff world () :=
  v ← get_session "rows";
  match v with
  | VList l => set_session "rows" (VList (l ++ [VStr []]))
  | _ => raise (AttributeError (lit "object has no attribute 'append'"))
  end.

Definition add_clear_buttons (i : inputs) : Eff world (bool * bool) :=
  let add_clicked := add_headline i in
  let clear_clicked := clear_all i in
  (if add_clicked then rows_append_empty else mret ());;
  (if clear_clicked then
     set_session "rows" (of_rows []);;
     set_session "results" VNone;;
     set_session "used_rows" VNone
   else mret ());;
  mret (add_clicked, clear_clicked).

Section Script.
(** A [pandas.DataFrame]. *)
Context {frame : Type}.

(** What a run shows outside the notices of the main area: the sidebar, the
    status request, and the results table. *)
Inductive outside : Type :=
  | Get (url : str) (timeout : Z)
  | SidebarSuccess (body : str)
  | SidebarError (body : str)
  | Subheader (body : str)
  | Dataframe (df : frame)
  | Metric (label : str) (v : Z)
  | DownloadButton (label : str) (data : list N) (file_name mime : str).

(** The page: the client's world, and what is shown outside it. The two
    lists are each in order; the order between them is not kept. *)
Record page : Type := {
  main_area : world;
  elsewhere : list outside
}.

(** A computation on the client's world, as one on the page. *)
Definition in_main {A : Type} (m : Eff world A) : Eff page A :=
  λ p, let '(r, w) := m (main_area p) in
       (r, {| main_area := w; elsewhere := elsewhere p |}).

Definition show (o : outside) : Eff page () :=
  modify (λ p, {| main_area := main_area p;
                  elsewhere := elsewhere p ++ [o] |}).

(** [requests.get(url, timeout=...)] and [requests.post(...)]. *)
Variable requests_get : str → Z → outcome Response.
Variable requests_post :
  str → value → list (str * str) → Z → outcome Response.

(** The calls into pandas: the frame of two columns, the sum of the value
    counts of its labels, the number of its labels equal to a name, and its
    CSV text as bytes. *)
Variable DataFrame : value → value → outcome frame.
Variable value_counts_sum : frame → outcome Z.
Variable label_count : frame → str → outcome Z.
Variable to_csv_bytes : frame → outcome (list N).

Definition sidebar_controls (i : inputs) : Eff page str :=
  let backend_url := backend_url_input i in
  (if check_api i then
     try_except
       (show (Get (backend_url ++ lit "/status") 5);;
        response ← lift (requests_get (backend_url ++ lit "/status") 5);
        healthy ← (if ok response then
                     body ← lift (json response);
                     status ← lift (value_get body (lit "status") VNone);
                     mret (eq_str status (lit "OK"))
                   else mret false);
        if healthy : bool then show (SidebarSuccess (lit "API OK"))
        else show (SidebarError (lit "API reachable, bad response")))
       isinstance_RequestException
       (λ exc, show (SidebarError (lit "Failed: " ++ exc_str exc)))
   else mret ());;
  (if reset_app i then
     in_main (set_session "rows" (of_rows []);;
              set_session "results" VNone;;
              set_session "used_rows" VNone;;
              st_toast (lit "Reset"))
   else mret ());;
  mret backend_url.

Definition results_table : Eff page () :=
  results ← in_main (get_session "results");
  both ← (if truth results then
            used_rows ← in_main (get_session "used_rows");
            mret (truth used_rows)
          else mret false);
  if negb both then mret ()
  else
    used_rows ← in_main (get_session "used_rows");
    df_result ← lift (DataFrame used_rows results);
    show (Subheader (lit "Results"));;
    show (Dataframe df_result);;
    total ← lift (value_counts_sum df_result);
    show (Metric (lit "Total") total);;
    optimistic ← lift (label_count df_result (lit "Optimistic"));
    show (Metric (lit "Optimistic") optimistic);;
    pessimistic ← lift (label_count df_result (lit "Pessimistic"));
    show (Metric (lit "Pessimistic") pessimistic);;
    csv_bytes ← lift (to_csv_bytes df_result);
    show (DownloadButton (lit "Download CSV") csv_bytes
            (lit "headline_sentiment.csv") (lit "text/csv")).

Definition main (i : inputs) : Eff page () :=
  in_main init_session;;
  backend_url ← sidebar_controls i;
  in_main (bulk_paste_controls i);;
  in_main (editable_rows i);;
  in_main (add_clear_buttons i);;
  (if score_button i then
     rows ← in_main session_rows;
     in_main (score requests_post backend_url rows);;
     mret ()
   else mret ());;
  results_table.
End Script.

Arguments outside : clear implicits.
Arguments page : clear implicits.

End Page.

(** Further observations on the traces of the service. *)
Module ObserveLoads.
Import Api.

Section Service.
Context {vector : Type}.

(** The events that load a model. *)
Definition is_load (ev : event vector) : bool :=
  match ev with
  | JoblibLoad _ | SentenceTransformerLoad _ => true
  | _ => false
  end.

Definition loads (t : trace vector) : list (event vector) :=
  List.filter is_load t.


Definition internal_error : py_exception :=
  HTTPException 500 (lit "Internal server error.").
End Service.
End ObserveLoads.

(** A headline as [score] sends it: not empty, and with no whitespace at
    either end. *)
Definition trimmed (h : str) : Prop :=
  h ≠ []
  ∧ (∀ c, head h = Some c → isspace c = false)
  ∧ (∀ c, last h = Some c → isspace c = false).

(** Observations on the page. *)
Module ObservePage.
Import Client Page.

(** What [init_session] gives the attributes that were never set. *)
Definition session_defaults : gmap string value :=
  {[ "rows" := of_rows [lit "Stocks sink on inflation jitters";
                        lit "Company beats earnings expectations";
                        lit "Oil prices fall amid weak demand"];
     "results" := VNone;
     "used_rows" := VNone ]}.

(** The world with another session state, the effects as they were. *)
Definition with_session (w : world) (ss : gmap string value) : world :=
  {| session_state := ss; effects := effects w |}.

(** The session state after the three assignments that forget a scoring:
    [rows] set, [results] and [used_rows] set to [None]. *)
Definition restarted (rows : list str) (ss : gmap string value)
    : gmap string value :=
  <["used_rows" := VNone]> (<["results" := VNone]>
    (<["rows" := of_rows rows]> ss)).

(** [rows] holds a list of [str]. *)
Definition rows_typed (w : world) : Prop :=
  ∃ rows : list str, session_state w !! "rows" = Some (of_rows rows).

(** A line holds no line break. *)
Definition single_line (s : str) : Prop :=
  Forall (λ c, islinebreak c = false) s.

Section Script.
Context {frame : Type}.

(** The status requests among what is shown outside the main area. *)
Definition is_get (o : outside frame) : bool :=
  match o with
  | Get _ _ => true
  | _ => false
  end.

Definition gets (l : list (outside frame)) : list (outside frame) :=
  List.filter is_get l.

(** The page after the status request and what is shown next to it: the
    main area as it was. *)
Definition checked (i : inputs) (p : page frame) (new : list (outside frame))
    : page frame :=
  {| main_area := main_area p;
     elsewhere :=
       elsewhere p ++ Get (backend_url_input i ++ lit "/status") 5 :: new |}.
End Script.

(** No button but, possibly, "Score headlines" was clicked in the run. *)
Definition only_score (i : inputs) : Prop :=
  check_api i = false ∧ reset_app i = false
  ∧ replace_from_paste i = false ∧ load_sample i = false
  ∧ add_headline i = false ∧ clear_all i = false.

(** The session as a run leaves it: [rows] holds the list [rows], and
    [results] and [used_rows] are set. *)
Definition session_ready (w : world) (rows : list str) : Prop :=
  session_state w !! "rows" = Some (of_rows rows)
  ∧ is_Some (session_state w !! "results")
  ∧ is_Some (session_state w !! "used_rows").

(** The answer of a status request that the sidebar reports as healthy: no
    error status, and a JSON dict whose [status] is the string [OK]. *)
Definition healthy (r : outcome Response) : Prop :=
  ∃ response d,
    r = Returned response ∧ ok response = true
    ∧ json response = Returned (VDict d)
    ∧ d !! lit "status" = Some (VStr (lit "OK")).
End ObservePage.

(** Relations between the state before and the state after a run, whatever
    the run ends in. *)
Module Steps.
Import Client Page ObservePage Observe.

(** Every run of [m] relates the state it starts in to the state it ends
    in. *)
Definition step {St A : Type} (R : relation St) (m : Eff St A) : Prop :=
  ∀ s, R s (m s).2.

(** On the client's world: the rows stay a list of [str], and at most [n]
    requests are added to the effects. *)
Definition posting (n : nat) : relation world :=
  λ w w',
    (rows_typed w → rows_typed w')
    ∧ (length (posts (effects w')) ≤ length (posts (effects w)) + n)%nat.

(** On the page: the same of its main area, and at most [m] status requests
    are added to what is shown outside it. *)
Definition within {frame : Type} (n m : nat) : relation (page frame) :=
  λ p p',
    posting n (main_area p) (main_area p')
    ∧ (length (gets (elsewhere p')) ≤ length (gets (elsewhere p)) + m)%nat.
End Steps.

(** Sample runs of the page. A frame is nothing here, and pandas always
    returns. *)
Module SamplePage.
Import Client Page ObservePage.

(** The inputs of a run in which the button labelled [clicked] was clicked
    (none, for a label no button has), the delete button of row [deleted]
    if any, with [text] in the paste area and no text input edited. *)
Definition run_inputs (clicked : string) (text : str) (deleted : option nat)
    : inputs :=
  {| backend_url_input := lit "http://localhost:8013";
     check_api := bool_decide (clicked = "Check API");
     reset_app := bool_decide (clicked = "Reset App");
     pasted := text;
     replace_from_paste := bool_decide (clicked = "Replace from paste");
     load_sample := bool_decide (clicked = "Load sample");
     row_text := λ _ text_value, text_value;
     row_delete := λ index, bool_decide (deleted = Some index);
     add_headline := bool_decide (clicked = "Add headline");
     clear_all := bool_decide (clicked = "Clear all");
     score_button := bool_decide (clicked = "Score headlines") |}.

(** The rows a fresh session starts with. *)
Definition first_rows : list str :=
  [lit "Stocks sink on inflation jitters";
   lit "Company beats earnings expectations";
   lit "Oil prices fall amid weak demand"].

(** The world of a fresh session after [init_session]. *)
Definition ready_world : world :=
  {| session_state := session_defaults; effects := [] |}.

Definition ready_page : page () :=
  {| main_area := ready_world; elsewhere := [] |}.

(** A page of a session in which nothing is set. *)
Definition blank_page : page () :=
  {| main_area := {| session_state := ∅; effects := [] |};
     elsewhere := [] |}.

(** Two lines around a blank one: "Fed holds", and " Oil falls ". *)
Definition two_lines : str :=
  lit "Fed holds" ++ [13; 10; 32; 32; 10]%N ++ lit " Oil falls ".

(** A service that answers the status request as [get_status] does, and a
    scoring request with a list in place of a dict, or with a dict that has
    no labels. *)
Definition status_ok : str → Z → outcome Response :=
  λ _ _, Returned {| status_code := 200; text := [];
                     json := (Api.get_status (vector := Z) []).1 |}.
Definition answers_list
    : str → value → list (str * str) → Z → outcome Response :=
  λ _ _ _ _, Returned {| status_code := 200; text := [];
                         json := Returned (VList [VStr (lit "Neutral")]) |}.
Definition answers_no_labels
    : str → value → list (str * str) → Z → outcome Response :=
  λ _ _ _ _, Returned {| status_code := 200; text := [];
                         json := Returned (VDict ∅) |}.
Definition answers_labels
    : str → value → list (str * str) → Z → outcome Response :=
  λ _ _ _ _,
    Returned {| status_code := 200; text := [];
                json := Returned
                          (VDict {[ lit "labels" :=
                                      VList [VStr (lit "Neutral")] ]}) |}.

(** pandas, for a frame that is nothing. *)
Definition DataFrame : value → value → outcome () := λ _ _, Returned ().
Definition value_counts_sum : () → outcome Z := λ _, Returned 0.
Definition label_count : () → str → outcome Z := λ _ _, Returned 0.
Definition to_csv_bytes : () → outcome (list N) := λ _, Returned [].
End SamplePage.

(** ** Runs on concrete inputs *)

Example strip_trims : strip (lit "  Oil prices fall  ") = lit "Oil prices fall".
Proof. reflexivity. Qed.

Example strip_blank : strip [9; 32; 160; 8232]%N = [].
Proof. reflexivity. Qed.

Example trimmed_non_blank_rows :
  trimmed_non_blank [lit " Fed holds "; lit "   "; []; lit "Oil falls"]
  = [lit "Fed holds"; lit "Oil falls"].
Proof. reflexivity. Qed.

Example LABELS_get_7 : Api.LABELS_get 7 = lit "Unknown".
Proof. reflexivity. Qed.

Example ok_300 :
  Client.ok {| Client.status_code := 300; Client.text := [];
               Client.json := Returned VNone |} = true.
Proof. reflexivity. Qed.

Example ok_404 :
  Client.ok {| Client.status_code := 404; Client.text := [];
               Client.json := Returned VNone |} = false.
Proof. reflexivity. Qed.

(** ** Properties of the inference service *)

Import Api Client Observe.

Section ServiceProperties.
Context {vector : Type}.
Implicit Types (g : globals vector) (t : trace vector) (hs : list str).

Lemma truthy_true {A : Type} (l : list A) : l ≠ [] → truthy l = true.
Proof. by destruct l. Qed.

(** Unfolds the monadic plumbing of a handler, leaving the state passing. *)
Ltac run_eff :=
  unfold try_except, call, logging_info, logging_warning, logging_error,
    logging_critical, emit, modify, lift, raise, mbind, Eff_bind, bind,
    mret, Eff_ret, ret;
  simpl.

(** When both models return, so does the handler: one label per code. *)
Lemma score_headlines_models_return g hs t X codes :
  hs ≠ [] →
  encode (EMBEDDER g) hs = Returned X →
  predict (CLASSIFIER g) X = Returned codes →
  score_headlines g {| headlines := hs |} t
  = (Returned (labels_body (LABELS_get <$> codes)),
     t ++ [request_logged hs; Encode hs; Predict X]).
Proof.
  intros Hne Henc Hpred.
  unfold score_headlines. simpl headlines.
  rewrite (truthy_true _ Hne). run_eff.
  rewrite Henc. simpl. rewrite Hpred.
  by rewrite <- !app_assoc.
Qed.

(** When the embedder raises, the classifier is not reached and the handler
    ends in what its [except] clause does with the exception. *)
Lemma score_headlines_encode_raises g hs t e :
  hs ≠ [] →
  encode (EMBEDDER g) hs = Raised e →
  score_headlines g {| headlines := hs |} t
  = if isinstance_Exception e
    then (Raised (HTTPException 500 (lit "Internal server error.")),
          t ++ [request_logged hs; Encode hs;
                Logged ERROR (lit "Error during prediction: %s") [ArgExc e]])
    else (Raised e, t ++ [request_logged hs; Encode hs]).
Proof.
  intros Hne Henc.
  unfold score_headlines. simpl headlines.
  rewrite (truthy_true _ Hne). run_eff.
  rewrite Henc. destruct (isinstance_Exception e); by rewrite <- !app_assoc.
Qed.

Lemma score_headlines_predict_raises g hs t X e :
  hs ≠ [] →
  encode (EMBEDDER g) hs = Returned X →
  predict (CLASSIFIER g) X = Raised e →
  score_headlines g {| headlines := hs |} t
  = if isinstance_Exception e
    then (Raised (HTTPException 500 (lit "Internal server error.")),
          t ++ [request_logged hs; Encode hs; Predict X;
                Logged ERROR (lit "Error during prediction: %s") [ArgExc e]])
    else (Raised e, t ++ [request_logged hs; Encode hs; Predict X]).
Proof.
  intros Hne Henc Hpred.
  unfold score_headlines. simpl headlines.
  rewrite (truthy_true _ Hne). run_eff.
  rewrite Henc. simpl. rewrite Hpred.
  destruct (isinstance_Exception e); by rewrite <- !app_assoc.
Qed.

Lemma score_headlines_no_headlines g t :
  score_headlines g {| headlines := [] |} t
  = (Raised (HTTPException 400 (lit "No headlines provided.")),
     t ++ [request_logged [];
           Logged WARNING (lit "Received empty headline list.") []]).
Proof. unfold score_headlines. run_eff. by rewrite <- !app_assoc. Qed.

Lemma model_calls_app t1 t2 :
  model_calls (t1 ++ t2) = model_calls t1 ++ model_calls t2.
Proof. apply List.filter_app. Qed.

Lemma routes_app t1 t2 : routes (t1 ++ t2) = routes t1 ++ routes t2.
Proof. apply List.filter_app. Qed.

(** Every value of the label lookup is one of the four names. *)
Lemma LABELS_get_cases (c : Z) :
  LABELS_get c
  = if decide (c = 0) then lit "Pessimistic"
    else if decide (c = 1) then lit "Neutral"
    else if decide (c = 2) then lit "Optimistic"
    else lit "Unknown".
Proof.
  unfold LABELS_get, dict_get, LABELS.
  repeat case_decide; subst; simplify_map_eq; done.
Qed.

Lemma LABELS_get_name (c : Z) : LABELS_get c ∈ label_names.
Proof.
  rewrite LABELS_get_cases. unfold label_names.
  repeat case_decide; set_solver.
Qed.

(** C1: for a non-empty batch whose embeddings and codes the models return
    row by row in the order of the batch, [score_headlines] returns a labels
    list as long as the batch, and the label at index [i] is the label of
    the code of the embedding of the headline at index [i]. *)
Theorem score_headlines_index_aligned
    (embeds : str → vector → Prop) (classifies : vector → Z → Prop)
    g hs t X codes :
  hs ≠ [] →
  encode (EMBEDDER g) hs = Returned X →
  Forall2 embeds hs X →
  predict (CLASSIFIER g) X = Returned codes →
  Forall2 classifies X codes →
  ∃ labels : list str,
    (score_headlines g {| headlines := hs |} t).1
      = Returned (labels_body labels)
    ∧ length labels = length hs
    ∧ ∀ (i : nat) (h : str), hs !! i = Some h →
        ∃ v c, embeds h v ∧ classifies v c
               ∧ labels !! i = Some (LABELS_get c).
Proof.
  intros Hne Henc He Hpred Hc.
  exists (LABELS_get <$> codes).
  rewrite (score_headlines_models_return g hs t X codes Hne Henc Hpred).
  split; [done | split].
  - rewrite length_fmap.
    by rewrite (Forall2_length _ _ _ He), (Forall2_length _ _ _ Hc).
  - intros i h Hi.
    destruct (Forall2_lookup_l _ _ _ _ _ He Hi) as (v & Hv & Hhv).
    destruct (Forall2_lookup_l _ _ _ _ _ Hc Hv) as (c & Hcode & Hvc).
    exists v, c. split; [done | split; [done |]].
    by rewrite list_lookup_fmap, Hcode.
Qed.

(** C2: for the empty list [score_headlines] raises the 400 error, and the
    only effects are two log records: no call of the embedder or of the
    classifier is made. *)
Theorem score_headlines_empty_400 g t :
  (score_headlines g {| headlines := [] |} t).1
    = Raised (HTTPException 400 (lit "No headlines provided."))
  ∧ model_calls (score_headlines g {| headlines := [] |} t).2
    = model_calls t.
Proof.
  rewrite score_headlines_no_headlines. split; [done |].
  simpl. rewrite model_calls_app. simpl. by rewrite app_nil_r.
Qed.

(** C3: the label of code 0 is Pessimistic, of 1 Neutral, of 2 Optimistic,
    and the label of every code outside {0, 1, 2} is Unknown. *)
Theorem LABELS_get_codes :
  LABELS_get 0 = lit "Pessimistic"
  ∧ LABELS_get 1 = lit "Neutral"
  ∧ LABELS_get 2 = lit "Optimistic"
  ∧ ∀ c : Z, c ∉ ({[0; 1; 2]} : gset Z) → LABELS_get c = lit "Unknown".
Proof.
  repeat split; try reflexivity.
  intros c Hc. rewrite LABELS_get_cases.
  repeat case_decide; try done; set_solver.
Qed.

(** C4: in every state of the process, [get_status] returns the dict
    [{"status": "OK"}] (and writes one log record). *)
Theorem get_status_ok t :
  get_status t
  = (Returned (VDict {[ lit "status" := VStr (lit "OK") ]}),
     t ++ [Logged INFO (lit "GET /status request received.") []]).
Proof. reflexivity. Qed.

(** C5: for a non-empty batch, when the embedder or the classifier raises an
    exception, [score_headlines] raises the 500 error whose detail is the
    fixed text "Internal server error."; the exception itself only goes to
    the log. *)
Theorem score_headlines_internal_error g hs t e :
  hs ≠ [] →
  isinstance_Exception e = true →
  encode (EMBEDDER g) hs = Raised e
  ∨ (∃ X, encode (EMBEDDER g) hs = Returned X
          ∧ predict (CLASSIFIER g) X = Raised e) →
  (score_headlines g {| headlines := hs |} t).1
    = Raised (HTTPException 500 (lit "Internal server error."))
  ∧ last (score_headlines g {| headlines := hs |} t).2
    = Some (Logged ERROR (lit "Error during prediction: %s") [ArgExc e]).
Proof.
  intros Hne He [Henc | (X & Henc & Hpred)].
  - rewrite (score_headlines_encode_raises g hs t e Hne Henc), He.
    split; [done |]. simpl.
    by rewrite (last_app_cons t), !last_cons.
  - rewrite (score_headlines_predict_raises g hs t X e Hne Henc Hpred), He.
    split; [done |]. simpl.
    by rewrite (last_app_cons t), !last_cons.
Qed.

(** C6, as the code has it: [score_headlines] raises a 400 error exactly
    for the list with no element. The elements are not trimmed: a non-empty
    batch is handed to the models whatever its strings are. *)
Theorem score_headlines_400_iff_no_element g hs t :
  (∃ detail, (score_headlines g {| headlines := hs |} t).1
             = Raised (HTTPException 400 detail))
  ↔ hs = [].
Proof.
  split.
  - intros [detail H]. destruct (decide (hs = [])) as [| Hne]; [done |].
    exfalso. revert H.
    destruct (encode (EMBEDDER g) hs) as [X | e] eqn:Henc.
    + destruct (predict (CLASSIFIER g) X) as [codes | e] eqn:Hpred.
      * by rewrite (score_headlines_models_return g hs t X codes).
      * rewrite (score_headlines_predict_raises g hs t X e Hne Henc Hpred).
        destruct e; simpl; congruence.
    + rewrite (score_headlines_encode_raises g hs t e Hne Henc).
      destruct e; simpl; congruence.
  - intros ->. eexists. by rewrite score_headlines_no_headlines.
Qed.

(** C10: for a non-empty batch and whatever codes the classifier returns,
    the handler returns (the lookup of a label does not raise) a list with
    one label per code, each of them one of the four label names. *)
Theorem score_headlines_labels_named g hs t X codes :
  hs ≠ [] →
  encode (EMBEDDER g) hs = Returned X →
  predict (CLASSIFIER g) X = Returned codes →
  ∃ labels : list str,
    (score_headlines g {| headlines := hs |} t).1
      = Returned (labels_body labels)
    ∧ labels = LABELS_get <$> codes
    ∧ Forall (λ l, l ∈ label_names) labels.
Proof.
  intros Hne Henc Hpred. exists (LABELS_get <$> codes).
  rewrite (score_headlines_models_return g hs t X codes Hne Henc Hpred).
  split; [done | split; [done |]].
  apply Forall_fmap, Forall_forall. intros c _. apply LABELS_get_name.
Qed.

(** C7: when loading the classifier raises an exception, or loading the
    embedding model does after the classifier was loaded, the module's
    initialisation raises [RuntimeError("Model loading failed.")] caused by
    that exception, and no route has been registered: there is nothing to
    serve. *)
Theorem module_init_load_failure
    (joblib_load : str → outcome (Classifier vector))
    (SentenceTransformer : str → outcome (Embedder vector)) t e :
  isinstance_Exception e = true →
  joblib_load (lit "svm.joblib") = Raised e
  ∨ (∃ c, joblib_load (lit "svm.joblib") = Returned c
          ∧ SentenceTransformer (lit "all-MiniLM-L6-v2") = Raised e) →
  (module_init joblib_load SentenceTransformer t).1
    = Raised (RuntimeError (lit "Model loading failed.") (Some e))
  ∧ routes (module_init joblib_load SentenceTransformer t).2 = routes t.
Proof.
  intros He [Hc | (c & Hc & Hs)]; unfold module_init; run_eff.
  - rewrite Hc, He. simpl. split; [done |].
    rewrite !routes_app. simpl. by rewrite !app_nil_r.
  - rewrite Hc. simpl. rewrite Hs, He. simpl. split; [done |].
    rewrite !routes_app. simpl. by rewrite !app_nil_r.
Qed.

(** When both loads return, the module defines its globals and registers
    the two routes. *)
Lemma module_init_loaded
    (joblib_load : str → outcome (Classifier vector))
    (SentenceTransformer : str → outcome (Embedder vector)) t c m :
  joblib_load (lit "svm.joblib") = Returned c →
  SentenceTransformer (lit "all-MiniLM-L6-v2") = Returned m →
  (module_init joblib_load SentenceTransformer t).1
    = Returned {| CLASSIFIER := c; EMBEDDER := m |}
  ∧ routes (module_init joblib_load SentenceTransformer t).2
    = routes t ++ [RouteAdded (lit "GET") (lit "/status");
                   RouteAdded (lit "POST") (lit "/score_headlines")].
Proof.
  intros Hc Hs. unfold module_init. run_eff.
  rewrite Hc. simpl. rewrite Hs. simpl. split; [done |].
  rewrite !routes_app. simpl. by rewrite !app_nil_r, <- app_assoc.
Qed.
End ServiceProperties.

(** ** Properties of the dashboard client *)

Section Strip.
Implicit Types (s r : str) (rows : list str).

Lemma lstrip_nil_iff s : lstrip s = [] ↔ blank s = true.
Proof.
  induction s as [| c s IH]; simpl; [done |].
  destruct (isspace c); simpl; [done |]. split; discriminate.
Qed.

Lemma blank_reverse s : blank (reverse s) = blank s.
Proof.
  apply eq_true_iff_eq. unfold blank.
  rewrite !forallb_forall. setoid_rewrite <- list_elem_of_In.
  by setoid_rewrite elem_of_reverse.
Qed.

(** [strip] leaves nothing exactly of the blank strings. *)
Lemma strip_nil_iff s : strip s = [] ↔ blank s = true.
Proof.
  unfold strip, rstrip.
  rewrite <- (reverse_involutive []), (inj_iff reverse).
  change (reverse []) with (@nil N).
  rewrite lstrip_nil_iff, blank_reverse.
  split.
  - intros Hb. apply lstrip_nil_iff.
    destruct (lstrip s) as [| c s'] eqn:Hs; [done |].
    exfalso. simpl in Hb. apply andb_true_iff in Hb as [Hc _].
    clear -Hs Hc. induction s as [| d s IH]; [done |].
    simpl in Hs. destruct (isspace d) eqn:Hd; [by apply IH |].
    congruence.
  - intros Hb. apply lstrip_nil_iff in Hb. by rewrite Hb.
Qed.

Lemma truthy_strip r : truthy (strip r) = negb (blank r).
Proof.
  destruct (blank r) eqn:Hb.
  - apply strip_nil_iff in Hb. by rewrite Hb.
  - destruct (strip r) eqn:Hs; [| done].
    apply strip_nil_iff in Hs. congruence.
Qed.

(** The comprehension of [score] computes the trimmed non-blank rows. *)
Lemma payload_rows_spec rows :
  strip <$> List.filter (λ r, truthy (strip r)) rows = trimmed_non_blank rows.
Proof.
  unfold trimmed_non_blank. f_equal.
  apply List.filter_ext. intros r. apply truthy_strip.
Qed.

Lemma trimmed_non_blank_nil_iff rows :
  trimmed_non_blank rows = [] ↔ forallb blank rows = true.
Proof.
  unfold trimmed_non_blank.
  induction rows as [| r rows IH]; simpl; [done |].
  destruct (blank r); simpl; [done |]. split; discriminate.
Qed.
End Strip.

Section ClientProperties.
Variable requests_post : str → value → list (str * str) → Z → outcome Response.
Implicit Types (w : world) (rows : list str) (backend_url : str).

Ltac run_client :=
  unfold try_except, st_spinner, with_, st_warning, st_error, st_toast,
    set_session, perform, modify, lift, raise, mbind, Eff_bind, bind,
    mret, Eff_ret, ret;
  simpl.

Lemma ok_false_iff (response : Response) :
  ok response = false ↔ 400 ≤ status_code response < 600.
Proof.
  unfold ok. rewrite negb_false_iff, andb_true_iff.
  rewrite Z.leb_le, Z.ltb_lt. done.
Qed.

Lemma last_app_snoc {A : Type} (l l' : list A) (x : A) :
  last (l ++ l' ++ [x]) = Some x.
Proof. by rewrite app_assoc, last_snoc. Qed.

Lemma posts_app l1 l2 : posts (l1 ++ l2) = posts l1 ++ posts l2.
Proof. apply List.filter_app. Qed.

(** With nothing but blank rows: a warning, and nothing else. *)
Lemma score_all_blank backend_url rows w :
  forallb blank rows = true →
  score requests_post backend_url rows w
  = (Returned VNone,
     shown w [Warning (lit "Add at least one non-empty headline.")]).
Proof.
  intros Hb. apply trimmed_non_blank_nil_iff in Hb.
  unfold score. rewrite payload_rows_spec, Hb. done.
Qed.

(** With a row that is not blank, when the transport raises. *)
Lemma score_post_raises backend_url rows w e :
  forallb blank rows = false →
  requests_post (score_url backend_url) (score_data (trimmed_non_blank rows))
    score_headers 30 = Raised e →
  score requests_post backend_url rows w
  = if isinstance_RequestException e
    then (Returned VNone,
          shown w (requested backend_url rows
                   ++ [Error (lit "Request failed: " ++ exc_str e)]))
    else (Raised e, shown w (requested backend_url rows)).
Proof.
  intros Hb Hpost.
  assert (truthy (trimmed_non_blank rows) = true) as Hp.
  { apply truthy_true. rewrite trimmed_non_blank_nil_iff. congruence. }
  unfold score. rewrite payload_rows_spec, Hp. run_client.
  fold (score_url backend_url) score_headers
    (score_data (trimmed_non_blank rows)).
  rewrite Hpost. unfold shown, requested, score_request.
  destruct (isinstance_RequestException e); simpl;
    by rewrite <- !app_assoc.
Qed.

(** With a row that is not blank, when the response is an error status. *)
Lemma score_error_status backend_url rows w response :
  forallb blank rows = false →
  requests_post (score_url backend_url) (score_data (trimmed_non_blank rows))
    score_headers 30 = Returned response →
  ok response = false →
  score requests_post backend_url rows w
  = (Returned VNone,
     shown w (requested backend_url rows
              ++ [Error (lit "API error "
                         ++ lit (pretty (status_code response))
                         ++ lit ": " ++ text response)])).
Proof.
  intros Hb Hpost Hok.
  assert (truthy (trimmed_non_blank rows) = true) as Hp.
  { apply truthy_true. rewrite trimmed_non_blank_nil_iff. congruence. }
  unfold score. rewrite payload_rows_spec, Hp. run_client.
  fold (score_url backend_url) score_headers
    (score_data (trimmed_non_blank rows)).
  rewrite Hpost. simpl. rewrite Hok. simpl.
  unfold shown, requested, score_request. by rewrite <- !app_assoc.
Qed.

(** With a row that is not blank, whatever the transport and the body do,
    the effects of [score] begin with the spinner around the one request,
    and hold no other request. *)
Lemma score_effects backend_url rows w :
  forallb blank rows = false →
  ∃ rest,
    effects (score requests_post backend_url rows w).2
    = effects w ++ requested backend_url rows ++ rest
    ∧ posts rest = [].
Proof.
  intros Hb.
  assert (truthy (trimmed_non_blank rows) = true) as Hp.
  { apply truthy_true. rewrite trimmed_non_blank_nil_iff. congruence. }
  unfold score. rewrite payload_rows_spec, Hp. run_client.
  fold (score_url backend_url) score_headers
    (score_data (trimmed_non_blank rows)).
  unfold requested, score_request.
  destruct (requests_post _ _ _ _) as [response | e]; simpl.
  - destruct (ok response); simpl.
    + destruct (json response) as [body | e]; simpl.
      * destruct (value_get body _ _) as [labels | e]; simpl.
        -- eexists [_]. by rewrite <- !app_assoc.
        -- destruct (isinstance_RequestException e); simpl.
           ++ eexists [_]. by rewrite <- !app_assoc.
           ++ exists []. by rewrite <- !app_assoc.
      * destruct (isinstance_RequestException e); simpl.
        -- eexists [_]. by rewrite <- !app_assoc.
        -- exists []. by rewrite <- !app_assoc.
    + eexists [_]. by rewrite <- !app_assoc.
  - destruct (isinstance_RequestException e); simpl.
    + eexists [_]. by rewrite <- !app_assoc.
    + exists []. by rewrite <- !app_assoc.
Qed.

(** With a row that is not blank, when the response is not an error status
    and its body decodes to a dict: the payload and the labels are stored. *)
Lemma score_stores_labels backend_url rows w response d :
  forallb blank rows = false →
  requests_post (score_url backend_url) (score_data (trimmed_non_blank rows))
    score_headers 30 = Returned response →
  ok response = true →
  json response = Returned (VDict d) →
  score requests_post backend_url rows w
  = (Returned (dict_get d (lit "labels") (VList [])),
     {| session_state :=
          <["results" := dict_get d (lit "labels") (VList [])]>
            (<["used_rows" := VList (VStr <$> trimmed_non_blank rows)]>
               (session_state w));
        effects :=
          effects w ++ requested backend_url rows ++ [Toast (lit "Scored")]
     |}).
Proof.
  intros Hb Hpost Hok Hjson.
  assert (truthy (trimmed_non_blank rows) = true) as Hp.
  { apply truthy_true. rewrite trimmed_non_blank_nil_iff. congruence. }
  unfold score. rewrite payload_rows_spec, Hp. run_client.
  fold (score_url backend_url) score_headers
    (score_data (trimmed_non_blank rows)).
  rewrite Hpost. simpl. rewrite Hok. simpl. rewrite Hjson. simpl.
  unfold requested, score_request. by rewrite <- !app_assoc.
Qed.

(** C8: when every row is blank, [score] shows the warning, returns [None]
    and does nothing else (no request); otherwise the requests it adds are
    the one POST to [<backend_url>/score_headlines] whose body lists the
    trimmed non-blank rows, in the order of the rows. *)
Theorem score_posts_trimmed_rows backend_url rows w :
  if forallb blank rows
  then score requests_post backend_url rows w
       = (Returned VNone,
          shown w [Warning (lit "Add at least one non-empty headline.")])
  else posts (effects (score requests_post backend_url rows w).2)
       = posts (effects w)
         ++ [Post (backend_url ++ lit "/score_headlines")
               (VDict {[ lit "headlines"
                         := VList (VStr <$> trimmed_non_blank rows) ]})
               [(lit "Content-Type", lit "application/json")] 30].
Proof.
  destruct (forallb blank rows) eqn:Hb.
  - by apply score_all_blank.
  - destruct (score_effects backend_url rows w Hb) as (rest & -> & Hrest).
    rewrite !posts_app, Hrest. done.
Qed.

(** C9, as the code has it: every run of [score] adds at most one POST to
    the effects; and when that request fails, by a [RequestException] of the
    transport or by a response with a status from 400 to 599, the session
    state is as before, [None] is returned and the last thing shown is an
    inline error. *)
Theorem score_no_retry_failure_keeps_session backend_url rows w :
  (length (posts (effects (score requests_post backend_url rows w).2))
   ≤ length (posts (effects w)) + 1)%nat
  ∧ (forallb blank rows = false →
     post_failed (requests_post (score_url backend_url)
                    (score_data (trimmed_non_blank rows)) score_headers 30) →
     (score requests_post backend_url rows w).1 = Returned VNone
     ∧ session_state (score requests_post backend_url rows w).2
       = session_state w
     ∧ ∃ body, last (effects (score requests_post backend_url rows w).2)
               = Some (Error body)).
Proof.
  split.
  - destruct (forallb blank rows) eqn:Hb.
    + rewrite (score_all_blank backend_url rows w Hb). simpl.
      rewrite posts_app. simpl. rewrite app_nil_r. lia.
    + destruct (score_effects backend_url rows w Hb) as (rest & -> & Hrest).
      rewrite !posts_app, Hrest, !length_app. simpl. lia.
  - intros Hb Hfail.
    destruct (requests_post _ _ _ _) as [response | e] eqn:Hpost;
      simpl in Hfail.
    + apply ok_false_iff in Hfail.
      rewrite (score_error_status backend_url rows w response Hb Hpost Hfail).
      split; [done | split; [done |]]. eexists.
      unfold shown. cbn [snd effects]. apply last_app_snoc.
    + rewrite (score_post_raises backend_url rows w e Hb Hpost), Hfail.
      split; [done | split; [done |]]. eexists.
      unfold shown. cbn [snd effects]. apply last_app_snoc.
Qed.
End ClientProperties.

(** ** The properties on concrete runs *)

(** The alignment of labels and headlines, on the sample models: a headline
    is embedded as its length and classified by its residue modulo 5. *)
Lemma score_headlines_index_aligned_witness :
  ∃ labels : list str,
    (score_headlines Sample.models {| headlines := Sample.batch |} []).1
      = Returned (labels_body labels)
    ∧ length labels = length Sample.batch
    ∧ ∀ (i : nat) (h : str), Sample.batch !! i = Some h →
        ∃ v c, v = Z.of_nat (length h) ∧ c = v `mod` 5
               ∧ labels !! i = Some (LABELS_get c).
Proof.
  apply (score_headlines_index_aligned
           (λ h v, v = Z.of_nat (length h)) (λ v c, c = v `mod` 5)
           Sample.models Sample.batch [] [32; 35; 32] [2; 0; 2]).
  - discriminate.
  - reflexivity.
  - repeat constructor.
  - reflexivity.
  - repeat constructor.
Defined.

(** The 500 error, on the sample service whose embedder fails. *)
Lemma score_headlines_internal_error_witness :
  (score_headlines Sample.models_embedder_down
     {| headlines := Sample.batch |} []).1
    = Raised (HTTPException 500 (lit "Internal server error."))
  ∧ last (score_headlines Sample.models_embedder_down
            {| headlines := Sample.batch |} []).2
    = Some (Logged ERROR (lit "Error during prediction: %s")
              [ArgExc (OtherException (lit "CUDA out of memory"))]).
Proof.
  apply (score_headlines_internal_error Sample.models_embedder_down
           Sample.batch [] (OtherException (lit "CUDA out of memory"))).
  - discriminate.
  - reflexivity.
  - left. reflexivity.
Defined.

(** The labels of the sample batch are among the four names. *)
Lemma score_headlines_labels_named_witness :
  ∃ labels : list str,
    (score_headlines Sample.models {| headlines := Sample.batch |} []).1
      = Returned (labels_body labels)
    ∧ labels = LABELS_get <$> [2; 0; 2]
    ∧ Forall (λ l, l ∈ label_names) labels.
Proof.
  apply (score_headlines_labels_named Sample.models Sample.batch []
           [32; 35; 32] [2; 0; 2]).
  - discriminate.
  - reflexivity.
  - reflexivity.
Defined.

(** The module does not initialise when the classifier file is missing. *)
Lemma module_init_load_failure_witness :
  (module_init Sample.joblib_load_missing Sample.SentenceTransformer_loaded
     []).1
    = Raised (RuntimeError (lit "Model loading failed.")
                (Some (OtherException (lit "No such file or directory"))))
  ∧ routes (module_init Sample.joblib_load_missing
              Sample.SentenceTransformer_loaded []).2
    = routes [].
Proof.
  apply (module_init_load_failure Sample.joblib_load_missing
           Sample.SentenceTransformer_loaded []
           (OtherException (lit "No such file or directory"))).
  - reflexivity.
  - left. reflexivity.
Defined.

(** C6, at a batch of two strings of whitespace only: the batch is not
    rejected, the models are run on it and two labels are returned. *)
Lemma score_headlines_blank_batch_scored :
  forallb blank Sample.blank_batch = true
  ∧ (score_headlines Sample.models {| headlines := Sample.blank_batch |} []).1
    = Returned (labels_body [lit "Neutral"; lit "Optimistic"]).
Proof. split; vm_compute; reflexivity. Qed.

(** A backend that answers 500: the session state is kept, an error is
    shown. *)
Lemma score_no_retry_failure_witness :
  (score (Sample.backend 500 (Raised (RequestException (lit "not JSON"))))
     Sample.DEFAULT_BACKEND_URL Sample.batch Sample.empty_world).1
    = Returned VNone
  ∧ session_state
      (score (Sample.backend 500 (Raised (RequestException (lit "not JSON"))))
         Sample.DEFAULT_BACKEND_URL Sample.batch Sample.empty_world).2
    = session_state Sample.empty_world
  ∧ ∃ body,
      last (effects
              (score
                 (Sample.backend 500
                    (Raised (RequestException (lit "not JSON"))))
                 Sample.DEFAULT_BACKEND_URL Sample.batch
                 Sample.empty_world).2)
      = Some (Error body).
Proof.
  apply (proj2 (score_no_retry_failure_keeps_session
                  (Sample.backend 500
                     (Raised (RequestException (lit "not JSON"))))
                  Sample.DEFAULT_BACKEND_URL Sample.batch
                  Sample.empty_world)).
  - reflexivity.
  - simpl. lia.
Defined.

(** C9, at a response with status 300 and a JSON body: the status is not a
    2xx one, yet [score] takes the response as a success: it stores the
    labels in the session state and shows no error. *)
Lemma score_status_300_stores_results :
  session_state
    (score (Sample.backend 300 (Returned (labels_body [lit "Neutral"])))
       Sample.DEFAULT_BACKEND_URL [lit "Oil prices fall"]
       Sample.empty_world).2 !! "results"
    = Some (VList [VStr (lit "Neutral")])
  ∧ session_state Sample.empty_world !! "results" = None
  ∧ errors
      (effects
         (score (Sample.backend 300 (Returned (labels_body [lit "Neutral"])))
            Sample.DEFAULT_BACKEND_URL [lit "Oil prices fall"]
            Sample.empty_world).2)
    = [].
Proof. repeat split; vm_compute; reflexivity. Qed.

(** A backend that cannot be reached: one request, the session state kept,
    the failure shown inline. *)
Example score_unreachable :
  score Sample.unreachable Sample.DEFAULT_BACKEND_URL [lit " Oil falls "]
    Sample.empty_world
  = (Returned VNone,
     shown Sample.empty_world
       (requested Sample.DEFAULT_BACKEND_URL [lit " Oil falls "]
        ++ [Error (lit "Request failed: Connection refused")])).
Proof. vm_compute. reflexivity. Qed.

(** ** More on the inference service *)

Import ObserveLoads.

Section ServiceCalls.
Context {vector : Type}.
Implicit Types (g : globals vector) (t : trace vector) (hs : list str).

Ltac run_service :=
  unfold try_except, call, logging_info, logging_warning, logging_error,
    logging_critical, emit, modify, lift, raise, mbind, Eff_bind, bind,
    mret, Eff_ret, ret;
  simpl.

(** The three ways a run on a non-empty batch can go, by what the models
    do. *)
Lemma score_headlines_cases g hs t :
  hs ≠ [] →
  (∃ X codes,
      encode (EMBEDDER g) hs = Returned X
      ∧ predict (CLASSIFIER g) X = Returned codes
      ∧ score_headlines g {| headlines := hs |} t
        = (Returned (labels_body (LABELS_get <$> codes)),
           t ++ [request_logged hs; Encode hs; Predict X]))
  ∨ (∃ X e,
      encode (EMBEDDER g) hs = Returned X
      ∧ predict (CLASSIFIER g) X = Raised e
      ∧ score_headlines g {| headlines := hs |} t
        = if isinstance_Exception e
          then (Raised internal_error,
                t ++ [request_logged hs; Encode hs; Predict X;
                      Logged ERROR (lit "Error during prediction: %s")
                        [ArgExc e]])
          else (Raised e, t ++ [request_logged hs; Encode hs; Predict X]))
  ∨ (∃ e,
      encode (EMBEDDER g) hs = Raised e
      ∧ score_headlines g {| headlines := hs |} t
        = if isinstance_Exception e
          then (Raised internal_error,
                t ++ [request_logged hs; Encode hs;
                      Logged ERROR (lit "Error during prediction: %s")
                        [ArgExc e]])
          else (Raised e, t ++ [request_logged hs; Encode hs])).
Proof.
  intros Hne.
  destruct (encode (EMBEDDER g) hs) as [X | e] eqn:Henc.
  - destruct (predict (CLASSIFIER g) X) as [codes | e] eqn:Hpred.
    + left. exists X, codes.
      by rewrite (score_headlines_models_return g hs t X codes).
    + right; left. exists X, e.
      by rewrite (score_headlines_predict_raises g hs t X e).
  - right; right. exists e.
    by rewrite (score_headlines_encode_raises g hs t e).
Qed.

(** X1: the embedder is called once per non-empty batch, on the batch as it was
    received; the classifier is called once, on what the embedder returned,
    and not at all when the embedder raised. *)
Theorem score_headlines_model_calls g hs t :
  model_calls (score_headlines g {| headlines := hs |} t).2
  = model_calls t
    ++ match hs with
       | [] => []
       | _ :: _ =>
           match encode (EMBEDDER g) hs with
           | Returned X => [Encode hs; Predict X]
           | Raised _ => [Encode hs]
           end
       end.
Proof.
  destruct hs as [| h hs'].
  - rewrite score_headlines_no_headlines. simpl.
    rewrite model_calls_app. simpl. by rewrite app_nil_r.
  - destruct (score_headlines_cases g (h :: hs') t) as
      [(X & codes & Henc & _ & ->) | [(X & e & Henc & _ & ->) | (e & Henc & ->)]];
      [done | ..]; rewrite Henc; try destruct (isinstance_Exception e);
      simpl; by rewrite model_calls_app.
Qed.


(** X3: every request is logged before anything else is done with it, with the
    number of its headlines, and the handler only adds to the trace. *)
Theorem score_headlines_logs_request g hs t :
  ∃ rest, (score_headlines g {| headlines := hs |} t).2
          = t ++ Logged INFO
                   (lit "POST /score_headlines request received. Number of headlines: %d")
                   [ArgInt (Z.of_nat (length hs))] :: rest.
Proof.
  destruct hs as [| h hs'].
  - rewrite score_headlines_no_headlines. by eexists.
  - destruct (score_headlines_cases g (h :: hs') t) as
      [(X & codes & _ & _ & ->) | [(X & e & _ & _ & ->) | (e & _ & ->)]];
      [done | ..]; try destruct (isinstance_Exception e); by eexists.
Qed.

Lemma loads_app t1 t2 : loads (t1 ++ t2) = loads t1 ++ loads t2.
Proof. apply List.filter_app. Qed.


(** X5: the classifier is loaded first, from [svm.joblib], once; the embedding
    model [all-MiniLM-L6-v2] is loaded after it, once, and only when the
    classifier has loaded. *)
Theorem module_init_load_order
    (joblib_load : str → outcome (Classifier vector))
    (SentenceTransformer : str → outcome (Embedder vector)) t :
  loads (module_init joblib_load SentenceTransformer t).2
  = loads t
    ++ JoblibLoad (lit "svm.joblib")
       :: match joblib_load (lit "svm.joblib") with
          | Returned _ => [SentenceTransformerLoad (lit "all-MiniLM-L6-v2")]
          | Raised _ => []
          end.
Proof.
  unfold module_init. run_service.
  destruct (joblib_load _) as [c | e]; simpl.
  - destruct (SentenceTransformer _) as [m | e]; simpl;
      [| destruct (isinstance_Exception e); simpl];
      rewrite !loads_app; simpl; by rewrite ?app_nil_r, <- ?app_assoc.
  - destruct (isinstance_Exception e); simpl;
      rewrite !loads_app; simpl; by rewrite ?app_nil_r, <- ?app_assoc.
Qed.
End ServiceCalls.

(** ** More on [strip] and on [score] *)

Section StripMore.
Implicit Types (s h : str).

Lemma lstrip_split s : ∃ ws, s = ws ++ lstrip s ∧ blank ws = true.
Proof.
  induction s as [| c s (ws & Hs & Hws)]; [by exists [] |].
  simpl. destruct (isspace c) eqn:Hc.
  - exists (c :: ws). simpl. rewrite Hc, Hws. by rewrite <- Hs.
  - by exists [].
Qed.

Lemma lstrip_head s c : head (lstrip s) = Some c → isspace c = false.
Proof.
  induction s as [| d s IH]; [done |].
  simpl. destruct (isspace d) eqn:Hd; [done |].
  simpl. congruence.
Qed.


Lemma rstrip_split s : ∃ ws, s = rstrip s ++ ws ∧ blank ws = true.
Proof.
  destruct (lstrip_split (reverse s)) as (ws & Hs & Hws).
  exists (reverse ws). split; [| by rewrite blank_reverse].
  unfold rstrip. rewrite <- reverse_app, <- Hs. by rewrite reverse_involutive.
Qed.

Lemma rstrip_last s c : last (rstrip s) = Some c → isspace c = false.
Proof.
  unfold rstrip. rewrite last_reverse. apply lstrip_head.
Qed.


(** What [strip] leaves of a string that is not blank is [trimmed]. *)
Lemma strip_trimmed s : blank s = false → trimmed (strip s).
Proof.
  intros Hb.
  assert (strip s ≠ []) as Hne.
  { intros H. apply strip_nil_iff in H. congruence. }
  split; [done | split].
  - intros c Hc. unfold strip in *.
    destruct (rstrip_split (lstrip s)) as (ws & Hs & _).
    apply (lstrip_head s). rewrite Hs.
    destruct (rstrip (lstrip s)); [done | exact Hc].
  - intros c. apply rstrip_last.
Qed.



Lemma trimmed_non_blank_trimmed (rows : list str) :
  Forall trimmed (trimmed_non_blank rows).
Proof.
  unfold trimmed_non_blank. apply Forall_fmap, Forall_forall.
  intros r Hr. apply list_elem_of_In, List.filter_In in Hr as [_ Hr].
  apply strip_trimmed. by apply negb_true_iff.
Qed.

End StripMore.

Section ScoreMore.
Variable requests_post : str → value → list (str * str) → Z → outcome Response.
Implicit Types (w : world) (rows : list str) (backend_url : str).

(** Unfolds a run of [score] on rows that are not all blank down to the
    cases of the transport and of the response. *)
Ltac run_score url rows :=
  let Hp := fresh "Hp" in
  assert (truthy (trimmed_non_blank rows) = true) as Hp
    by (apply truthy_true; rewrite trimmed_non_blank_nil_iff; congruence);
  unfold score; rewrite payload_rows_spec, Hp;
  unfold try_except, st_spinner, with_, st_warning, st_error, st_toast,
    set_session, perform, modify, lift, raise, mbind, Eff_bind, bind,
    mret, Eff_ret, ret;
  simpl;
  fold (score_url url) score_headers
    (score_data (trimmed_non_blank rows)).

(** With a row that is not blank and a response that is no error status,
    when the body cannot be decoded. *)
Lemma score_json_raises backend_url rows w response e :
  forallb blank rows = false →
  requests_post (score_url backend_url) (score_data (trimmed_non_blank rows))
    score_headers 30 = Returned response →
  ok response = true →
  json response = Raised e →
  score requests_post backend_url rows w
  = if isinstance_RequestException e
    then (Returned VNone,
          shown w (requested backend_url rows
                   ++ [Error (lit "Request failed: " ++ exc_str e)]))
    else (Raised e, shown w (requested backend_url rows)).
Proof.
  intros Hb Hpost Hok Hjson. run_score backend_url rows.
  rewrite Hpost. simpl. rewrite Hok. simpl. rewrite Hjson. simpl.
  unfold shown, requested, score_request.
  destruct (isinstance_RequestException e); simpl; by rewrite <- !app_assoc.
Qed.

(** With a row that is not blank and a response that is no error status,
    when the decoded body is not a dict. *)
Lemma score_body_without_get backend_url rows w response body :
  forallb blank rows = false →
  requests_post (score_url backend_url) (score_data (trimmed_non_blank rows))
    score_headers 30 = Returned response →
  ok response = true →
  json response = Returned body →
  (∀ d, body ≠ VDict d) →
  score requests_post backend_url rows w
  = (Raised (AttributeError (lit "object has no attribute 'get'")),
     shown w (requested backend_url rows)).
Proof.
  intros Hb Hpost Hok Hjson Hbody. run_score backend_url rows.
  rewrite Hpost. simpl. rewrite Hok. simpl. rewrite Hjson. simpl.
  unfold shown, requested, score_request.
  destruct body; simpl; try by rewrite <- !app_assoc.
  by destruct (Hbody d).
Qed.


(** X7: no [RequestException] leaves [score]; and when another exception does
    (from the transport, or from a body that is not JSON or not a dict),
    the session state is as before and neither an error nor the toast has
    been shown: only the spinner and the request. *)
Theorem score_raised backend_url rows w :
  match (score requests_post backend_url rows w).1 with
  | Returned _ => True
  | Raised e =>
      isinstance_RequestException e = false
      ∧ (score requests_post backend_url rows w).2
        = shown w (requested backend_url rows)
  end.
Proof.
  destruct (forallb blank rows) eqn:Hb.
  { by rewrite (score_all_blank requests_post backend_url rows w Hb). }
  destruct (requests_post (score_url backend_url)
              (score_data (trimmed_non_blank rows)) score_headers 30)
    as [response | e] eqn:Hpost.
  2: { rewrite (score_post_raises _ backend_url rows w e Hb Hpost).
       by destruct (isinstance_RequestException e) eqn:He. }
  destruct (ok response) eqn:Hok.
  2: { by rewrite (score_error_status _ backend_url rows w response). }
  destruct (json response) as [body | e] eqn:Hjson.
  2: { rewrite (score_json_raises backend_url rows w response e
                  Hb Hpost Hok Hjson).
       by destruct (isinstance_RequestException e) eqn:He. }
  destruct body as [| b | z | x | l | d].
  6: { by rewrite (score_stores_labels _ backend_url rows w response d
                     Hb Hpost Hok Hjson). }
  all: by rewrite (score_body_without_get backend_url rows w response _
                     Hb Hpost Hok Hjson).
Qed.

(** X8: [score] sends no empty batch and no headline that is empty or has
    whitespace at either end: when it makes a request, the batch has a
    headline and every headline of it is [trimmed]. *)
Theorem score_requests_well_formed backend_url rows w :
  posts (effects (score requests_post backend_url rows w).2)
    = posts (effects w)
  ∨ ∃ payload : list str,
      payload ≠ [] ∧ Forall trimmed payload
      ∧ posts (effects (score requests_post backend_url rows w).2)
        = posts (effects w) ++ [score_request backend_url payload].
Proof.
  destruct (forallb blank rows) eqn:Hb.
  - left. rewrite (score_all_blank requests_post backend_url rows w Hb).
    simpl. rewrite posts_app. simpl. by rewrite app_nil_r.
  - right. exists (trimmed_non_blank rows).
    split; [| split; [apply trimmed_non_blank_trimmed |]].
    + rewrite trimmed_non_blank_nil_iff. congruence.
    + destruct (score_effects requests_post backend_url rows w Hb)
        as (rest & -> & Hrest).
      by rewrite !posts_app, Hrest.
Qed.

(** X9: [score] reads and writes nothing of the session state but [used_rows]
    and [results]: the rows on the page, and anything else kept there, stay
    as they are. *)
Theorem score_keeps_other_attributes backend_url rows w (attr : string) :
  attr ≠ "used_rows" →
  attr ≠ "results" →
  session_state (score requests_post backend_url rows w).2 !! attr
  = session_state w !! attr.
Proof.
  intros Hu Hr.
  destruct (forallb blank rows) eqn:Hb.
  { by rewrite (score_all_blank requests_post backend_url rows w Hb). }
  destruct (requests_post (score_url backend_url)
              (score_data (trimmed_non_blank rows)) score_headers 30)
    as [response | e] eqn:Hpost.
  2: { rewrite (score_post_raises _ backend_url rows w e Hb Hpost).
       by destruct (isinstance_RequestException e). }
  destruct (ok response) eqn:Hok.
  2: { by rewrite (score_error_status _ backend_url rows w response). }
  destruct (json response) as [body | e] eqn:Hjson.
  2: { rewrite (score_json_raises backend_url rows w response e
                  Hb Hpost Hok Hjson).
       by destruct (isinstance_RequestException e). }
  destruct body as [| b | z | x | l | d].
  6: { rewrite (score_stores_labels _ backend_url rows w response d
                  Hb Hpost Hok Hjson).
       simpl. by rewrite !lookup_insert_ne. }
  all: by rewrite (score_body_without_get backend_url rows w response _
                     Hb Hpost Hok Hjson).
Qed.

(** X10: a successful response whose body is a dict without the key [labels]:
    [score] takes the labels to be the empty list, stores it as the results
    beside the rows it posted, and shows the toast. *)
Theorem score_missing_labels_key backend_url rows w response d :
  forallb blank rows = false →
  requests_post (score_url backend_url) (score_data (trimmed_non_blank rows))
    score_headers 30 = Returned response →
  ok response = true →
  json response = Returned (VDict d) →
  d !! lit "labels" = None →
  score requests_post backend_url rows w
  = (Returned (VList []),
     {| session_state :=
          <["results" := VList []]>
            (<["used_rows" := VList (VStr <$> trimmed_non_blank rows)]>
               (session_state w));
        effects :=
          effects w ++ requested backend_url rows ++ [Toast (lit "Scored")]
     |}).
Proof.
  intros Hb Hpost Hok Hjson Hd.
  rewrite (score_stores_labels _ backend_url rows w response d
             Hb Hpost Hok Hjson).
  unfold dict_get. by rewrite Hd.
Qed.

(** X11: a successful response whose body is JSON but not a dict (a list, a
    string, a number, [null]): the [AttributeError] of [.get] leaves
    [score]; nothing is stored and no error is shown. *)
Theorem score_body_not_a_dict backend_url rows w response body :
  forallb blank rows = false →
  requests_post (score_url backend_url) (score_data (trimmed_non_blank rows))
    score_headers 30 = Returned response →
  ok response = true →
  json response = Returned body →
  (∀ d, body ≠ VDict d) →
  (∃ message,
      (score requests_post backend_url rows w).1
      = Raised (AttributeError message))
  ∧ session_state (score requests_post backend_url rows w).2
    = session_state w
  ∧ errors (effects (score requests_post backend_url rows w).2)
    = errors (effects w).
Proof.
  intros Hb Hpost Hok Hjson Hbody.
  rewrite (score_body_without_get backend_url rows w response body
             Hb Hpost Hok Hjson Hbody).
  split; [by eexists | split; [done |]].
  simpl. unfold errors. rewrite List.filter_app. simpl.
  by rewrite app_nil_r.
Qed.
End ScoreMore.

(** ** Properties of the page *)

Import Page ObservePage.

(** Literals stay as written when a run is simplified. *)
Arguments lit : simpl never.

(** Unfolds the monadic plumbing of a function of the page. *)
Ltac run_page :=
  unfold has_session, get_session, set_session, st_toast, perform, modify,
    lift, raise, mbind, Eff_bind, bind, mret, Eff_ret, ret;
  simpl.

Section Session.
Implicit Types (w : world) (ss : gmap string value) (rows : list str).

Lemma as_rows_of_rows rows : as_rows (of_rows rows) = Some rows.
Proof.
  unfold as_rows, of_rows. apply mapM_Some.
  induction rows as [| r rows IH]; by constructor.
Qed.

Lemma as_rows_Some v rows : as_rows v = Some rows → v = of_rows rows.
Proof.
  destruct v as [| | | | l |]; try done. unfold of_rows, as_rows.
  intros H. apply mapM_Some in H. f_equal.
  induction H as [| x r l rows Hx _ IH]; [done |].
  destruct x; try done. simpl. injection Hx as ->. by rewrite IH.
Qed.

(** One conditional assignment of [init_session]. *)
Lemma fill_missing (attr : string) (v : value) ss :
  (if bool_decide (is_Some (ss !! attr)) then ss else <[attr := v]> ss)
  = ss ∪ {[ attr := v ]}.
Proof.
  case_bool_decide as H.
  - destruct H as [x Hx]. apply map_eq. intros k. rewrite lookup_union.
    destruct (decide (k = attr)) as [-> | Hk].
    + by rewrite Hx, lookup_singleton_eq.
    + rewrite lookup_singleton_ne by done. by destruct (ss !! k).
  - apply eq_None_not_Some in H. by apply insert_union_singleton_r.
Qed.

Lemma session_defaults_union :
  session_defaults
  = {[ "rows" := of_rows [lit "Stocks sink on inflation jitters";
                          lit "Company beats earnings expectations";
                          lit "Oil prices fall amid weak demand"] ]}
    ∪ ({[ "results" := VNone ]} ∪ {[ "used_rows" := VNone ]}).
Proof.
  unfold session_defaults.
  rewrite <- !insert_union_singleton_l. done.
Qed.

Lemma init_session_run w :
  init_session w
  = (Returned (), with_session w (session_state w ∪ session_defaults)).
Proof.
  rewrite session_defaults_union, !(assoc_L (∪)).
  rewrite <- !fill_missing.
  unfold init_session. run_page. unfold with_session.
  destruct w as [ss eff]. simpl.
  destruct (bool_decide (is_Some (ss !! "rows"))); simpl;
    destruct (bool_decide (is_Some (_ !! "results"))); simpl;
    destruct (bool_decide (is_Some (_ !! "used_rows"))); done.
Qed.

(** X12: [init_session] returns, shows nothing, overrides no attribute that is
    set, and gives each of [rows], [results] and [used_rows] that is not set
    its default: the three sample rows, [None] and [None]. *)
Theorem init_session_fills_defaults w :
  (init_session w).1 = Returned ()
  ∧ effects (init_session w).2 = effects w
  ∧ ∀ attr : string,
      session_state (init_session w).2 !! attr
      = match session_state w !! attr with
        | Some v => Some v
        | None => session_defaults !! attr
        end.
Proof.
  rewrite init_session_run. split; [done | split; [done |]].
  intros attr. simpl. rewrite lookup_union.
  by destruct (session_state w !! attr), (session_defaults !! attr).
Qed.

(** X13: running [init_session] again changes nothing: a rerun of the script
    does not reset what the session holds. *)
Theorem init_session_idempotent w :
  (init_session;; init_session) w = init_session w.
Proof.
  unfold mbind, Eff_bind, bind. rewrite init_session_run. simpl.
  rewrite init_session_run. unfold with_session. simpl.
  by rewrite <- (assoc_L (∪)), (idemp_L (∪)).
Qed.

(** [splitlines] and [strip], as the paste uses them. *)
Lemma splitlines_from_single_line (n : nat) (line s : str) :
  (length s ≤ n)%nat →
  single_line line →
  Forall single_line (splitlines_from line s).
Proof.
  revert line s. induction n as [| n IH]; intros line s Hn Hline.
  - destruct s; [| simpl in Hn; lia]. simpl.
    destruct line; [done |]. constructor; [| done].
    by apply Forall_reverse.
  - destruct s as [| c s]; simpl.
    { destruct line; [done |]. constructor; [| done].
      by apply Forall_reverse. }
    simpl in Hn. destruct (islinebreak c) eqn:Hc.
    + constructor; [by apply Forall_reverse |].
      destruct s as [| d s'].
      * done.
      * destruct ((c =? 13) && (d =? 10))%N.
        -- apply IH; [simpl in Hn; lia | by constructor].
        -- apply IH; [lia | by constructor].
    + apply IH; [lia |]. by constructor.
Qed.

Lemma splitlines_single_line (s : str) : Forall single_line (splitlines s).
Proof.
  apply (splitlines_from_single_line (length s)); [done | by constructor].
Qed.

Lemma strip_single_line (s : str) : single_line s → single_line (strip s).
Proof.
  unfold single_line, strip. intros H.
  destruct (lstrip_split s) as (ws & Hs & _).
  destruct (rstrip_split (lstrip s)) as (ws' & Hs' & _).
  rewrite Hs, Hs' in H.
  apply Forall_app in H as [_ H]. by apply Forall_app in H as [H _].
Qed.

Lemma trimmed_non_blank_single_line (rows : list str) :
  Forall single_line rows → Forall single_line (trimmed_non_blank rows).
Proof.
  intros H. unfold trimmed_non_blank. apply Forall_fmap, Forall_forall.
  intros r Hr. apply list_elem_of_In, List.filter_In in Hr as [Hr _].
  apply strip_single_line.
  rewrite Forall_forall in H. by apply H, list_elem_of_In.
Qed.

Lemma bulk_paste_replace_run (i : inputs) w :
  replace_from_paste i = true →
  load_sample i = false →
  bulk_paste_controls i w
  = (Returned (),
     with_session w
       (restarted (trimmed_non_blank (splitlines (pasted i)))
          (session_state w))).
Proof.
  intros Hr Hl. unfold bulk_paste_controls. rewrite Hr, Hl.
  rewrite payload_rows_spec. run_page. done.
Qed.

(** X14: "Replace from paste": the rows become the non-blank lines of the pasted
    text, each trimmed and none holding a line break, in the order of the
    text; the results of an earlier scoring are forgotten. *)
Theorem bulk_paste_replace_rows (i : inputs) w :
  replace_from_paste i = true →
  load_sample i = false →
  ∃ lines : list str,
    bulk_paste_controls i w
    = (Returned (), with_session w (restarted lines (session_state w)))
    ∧ lines = trimmed_non_blank (splitlines (pasted i))
    ∧ Forall trimmed lines
    ∧ Forall single_line lines.
Proof.
  intros Hr Hl. exists (trimmed_non_blank (splitlines (pasted i))).
  split; [by apply bulk_paste_replace_run | split; [done | split]].
  - apply trimmed_non_blank_trimmed.
  - apply trimmed_non_blank_single_line, splitlines_single_line.
Qed.
End Session.

Section Rows.
Variable requests_post : str → value → list (str * str) → Z → outcome Response.
Implicit Types (w : world) (rows : list str) (i : inputs).

Lemma session_rows_typed w rows :
  session_state w !! "rows" = Some (of_rows rows) →
  session_rows w = (Returned rows, w).
Proof.
  intros H. unfold session_rows. run_page.
  by rewrite H, as_rows_of_rows.
Qed.

Lemma posts_requested (backend_url : str) rows :
  posts (requested backend_url rows)
  = [score_request backend_url (trimmed_non_blank rows)].
Proof. reflexivity. Qed.



Lemma updated_rows_no_delete i (k : nat) rows :
  (∀ j, (k ≤ j < k + length rows)%nat → row_delete i j = false) →
  updated_rows i k rows = imap (λ j r, row_text i (k + j)%nat r) rows.
Proof.
  revert k. induction rows as [| r rows IH]; intros k H; [done |].
  simpl. rewrite (H k) by (simpl; lia). simpl.
  rewrite Nat.add_0_r. f_equal.
  rewrite (IH (S k)).
  - apply imap_ext. intros j x _. simpl. f_equal. lia.
  - intros j Hj. apply H. simpl. lia.
Qed.

Lemma updated_rows_idle i (k : nat) rows :
  (∀ j, (k ≤ j < k + length rows)%nat → row_delete i j = false) →
  (∀ j r, rows !! j = Some r → row_text i (k + j)%nat r = r) →
  updated_rows i k rows = rows.
Proof.
  revert k. induction rows as [| r rows IH]; intros k Hdel Htext; [done |].
  simpl. rewrite (Hdel k) by (simpl; lia). simpl.
  rewrite <- (Htext 0%nat r eq_refl) at 2. rewrite Nat.add_0_r.
  f_equal. apply IH.
  - intros j Hj. apply Hdel. simpl. lia.
  - intros j x Hx. replace (S k + j)%nat with (k + S j)%nat by lia.
    by apply Htext.
Qed.

Lemma updated_rows_delete i (k d : nat) rows :
  (∀ j, (k ≤ j < k + length rows)%nat →
        row_delete i j = bool_decide (j = (k + d)%nat)) →
  (∀ j r, rows !! j = Some r → row_text i (k + j)%nat r = r) →
  updated_rows i k rows = delete d rows.
Proof.
  revert k d. induction rows as [| r rows IH]; intros k d Hdel Htext.
  { by destruct d. }
  simpl. rewrite (Hdel k) by (simpl; lia).
  destruct d as [| d].
  - rewrite bool_decide_eq_true_2 by lia. simpl.
    apply updated_rows_idle.
    + intros j Hj. rewrite Hdel by (simpl; lia).
      apply bool_decide_eq_false_2. lia.
    + intros j x Hx. replace (S k + j)%nat with (k + S j)%nat by lia.
      by apply Htext.
  - rewrite bool_decide_eq_false_2 by lia. simpl.
    rewrite <- (Htext 0%nat r eq_refl) at 2. rewrite Nat.add_0_r.
    f_equal. apply IH.
    + intros j Hj. rewrite Hdel by (simpl; lia).
      apply bool_decide_ext. lia.
    + intros j x Hx. replace (S k + j)%nat with (k + S j)%nat by lia.
      by apply Htext.
Qed.

Lemma editable_rows_run i w rows :
  session_state w !! "rows" = Some (of_rows rows) →
  editable_rows i w
  = (Returned (),
     with_session w
       (<["rows" := of_rows (updated_rows i 0 rows)]> (session_state w))).
Proof.
  intros H. unfold editable_rows, mbind, Eff_bind, bind.
  by rewrite (session_rows_typed w rows H).
Qed.

(** X16: when no row is deleted, [editable_rows] keeps the number and the order
    of the rows, and each row holds what its own text input returns. *)
Theorem editable_rows_edits i w rows :
  session_state w !! "rows" = Some (of_rows rows) →
  (∀ j, (j < length rows)%nat → row_delete i j = false) →
  ∃ rows' : list str,
    editable_rows i w
    = (Returned (),
       with_session w (<["rows" := of_rows rows']> (session_state w)))
    ∧ length rows' = length rows
    ∧ ∀ (j : nat) (r : str), rows !! j = Some r →
        rows' !! j = Some (row_text i j r).
Proof.
  intros Hrows Hdel. exists (updated_rows i 0 rows).
  split; [by apply editable_rows_run |].
  rewrite updated_rows_no_delete by (intros j Hj; apply Hdel; lia).
  split; [by rewrite length_imap |].
  intros j r Hj. by rewrite list_lookup_imap, Hj.
Qed.

(** X17: the delete button of one row removes that row and no other: when it is
    the only button clicked and no text was edited, the rows are the rows
    without the one at its index. *)
Theorem editable_rows_delete_one i w rows (d : nat) :
  session_state w !! "rows" = Some (of_rows rows) →
  (∀ j, (j < length rows)%nat → row_delete i j = bool_decide (j = d)) →
  (∀ j r, rows !! j = Some r → row_text i j r = r) →
  editable_rows i w
  = (Returned (),
     with_session w (<["rows" := of_rows (delete d rows)]> (session_state w))).
Proof.
  intros Hrows Hdel Htext.
  rewrite (editable_rows_run i w rows Hrows).
  rewrite (updated_rows_delete i 0 d rows); [done | |].
  - intros j Hj. apply Hdel. lia.
  - intros j r Hj. by apply Htext.
Qed.
End Rows.

Section Buttons.
Implicit Types (w : world) (rows : list str) (i : inputs).

Lemma restarted_insert_rows rows (v : value) (ss : gmap string value) :
  restarted rows (<["rows" := v]> ss) = restarted rows ss.
Proof. unfold restarted. by rewrite insert_insert_eq. Qed.

Lemma trimmed_non_blank_app rows rows' :
  trimmed_non_blank (rows ++ rows')
  = trimmed_non_blank rows ++ trimmed_non_blank rows'.
Proof.
  unfold trimmed_non_blank. by rewrite List.filter_app, fmap_app.
Qed.

(** X18: "Add headline" appends one empty row, and that row changes nothing of
    what a scoring sends: an empty row is blank. *)
Theorem add_headline_not_scored i w rows :
  session_state w !! "rows" = Some (of_rows rows) →
  add_headline i = true →
  clear_all i = false →
  add_clear_buttons i w
  = (Returned (true, false),
     with_session w (<["rows" := of_rows (rows ++ [[]])]> (session_state w)))
  ∧ trimmed_non_blank (rows ++ [[]]) = trimmed_non_blank rows.
Proof.
  intros Hrows Ha Hc. split.
  - unfold add_clear_buttons, rows_append_empty. rewrite Ha, Hc. run_page.
    rewrite Hrows. simpl. unfold with_session, of_rows.
    by rewrite fmap_app.
  - rewrite trimmed_non_blank_app. simpl. apply app_nil_r.
Qed.

(** X19: "Clear all" ends with no row and no results, also when "Add headline"
    was clicked in the same run: the row added is cleared with the rest. *)
Theorem clear_all_restarts i w :
  clear_all i = true →
  add_headline i = false ∨ (∃ l, session_state w !! "rows" = Some (VList l)) →
  add_clear_buttons i w
  = (Returned (add_headline i, true),
     with_session w (restarted [] (session_state w))).
Proof.
  intros Hc [Ha | [l Hl]].
  - unfold add_clear_buttons. rewrite Ha, Hc. run_page. done.
  - unfold add_clear_buttons, rows_append_empty. rewrite Hc.
    destruct (add_headline i); run_page; [| done].
    rewrite Hl. simpl. unfold with_session.
    change (<["used_rows":=VNone]> (<["results":=VNone]>
              (<["rows":=of_rows []]> ?m)))
      with (restarted [] m).
    by rewrite restarted_insert_rows.
Qed.
End Buttons.

Lemma eq_str_true (v : value) (s : str) : eq_str v s = true ↔ v = VStr s.
Proof.
  destruct v; simpl; try (split; [discriminate | by intros]).
  rewrite bool_decide_eq_true. split; congruence.
Qed.

(** Whether an answer is healthy can be told from the answer. *)
Lemma classic_healthy (r : outcome Response) : healthy r ∨ ¬ healthy r.
Proof.
  unfold healthy.
  destruct r as [response | e]; [| right; by intros (? & ? & ? & _)].
  destruct (ok response) eqn:Hok.
  2: { right. intros (? & ? & [= <-] & ? & _). congruence. }
  destruct (json response) as [[| | | | | d] | e] eqn:Hjson;
    try (right; intros (? & ? & [= <-] & _ & ? & _); congruence).
  destruct (d !! lit "status") as [v |] eqn:Hd.
  2: { right. intros (? & ? & [= <-] & _ & ? & ?). congruence. }
  destruct (eq_str v (lit "OK")) eqn:Hv.
  - left. exists response, d. apply eq_str_true in Hv. by subst.
  - right. intros (? & d' & [= <-] & _ & ? & Hd').
    assert (d' = d) as -> by congruence.
    rewrite Hd in Hd'. injection Hd' as ->.
    assert (eq_str (VStr (lit "OK")) (lit "OK") = true) as Ht
      by (by apply eq_str_true).
    congruence.
Qed.

Section Sidebar.
Context {frame : Type}.
Variable requests_get : str → Z → outcome Response.
Implicit Types (p : page frame) (i : inputs).

Ltac run_sidebar :=
  unfold try_except, show, in_main, set_session, st_toast, perform, modify,
    lift, raise, mbind, Eff_bind, bind, mret, Eff_ret, ret;
  simpl.

(** A healthy answer: the sidebar reports success. *)
Lemma sidebar_check_healthy i p :
  check_api i = true →
  reset_app i = false →
  healthy (requests_get (backend_url_input i ++ lit "/status") 5) →
  sidebar_controls requests_get i p
  = (Returned (backend_url_input i),
     checked i p [SidebarSuccess (lit "API OK")]).
Proof.
  intros Hc Hr (response & d & Hget & Hok & Hjson & Hd).
  unfold sidebar_controls. rewrite Hc, Hr. run_sidebar.
  rewrite Hget. simpl. rewrite Hok. simpl. rewrite Hjson. simpl.
  assert (eq_str (dict_get d (lit "status") VNone) (lit "OK") = true) as ->
    by (apply eq_str_true; unfold dict_get; by rewrite Hd).
  simpl. unfold checked. by rewrite <- !app_assoc.
Qed.

(** Any other answer: the request, and at most one thing shown beside it,
    which is not the success. *)
Lemma sidebar_check_unhealthy i p :
  check_api i = true →
  reset_app i = false →
  ¬ healthy (requests_get (backend_url_input i ++ lit "/status") 5) →
  ∃ new,
    (sidebar_controls requests_get i p).2 = checked i p new
    ∧ (new = [] ∨ ∃ body, new = [SidebarError body]).
Proof.
  intros Hc Hr Hn.
  unfold sidebar_controls. rewrite Hc, Hr. run_sidebar.
  destruct (requests_get _ _) as [response | e] eqn:Hget; simpl.
  2: { destruct (isinstance_RequestException e); simpl.
       - eexists [_]. unfold checked. rewrite <- !app_assoc.
         split; [done | right; by eexists].
       - exists []. split; [done | by left]. }
  destruct (ok response) eqn:Hok; simpl.
  2: { eexists [_]. unfold checked. rewrite <- !app_assoc.
       split; [done | right; by eexists]. }
  destruct (json response) as [body | e] eqn:Hjson; simpl.
  2: { destruct (isinstance_RequestException e); simpl.
       - eexists [_]. unfold checked. rewrite <- !app_assoc.
         split; [done | right; by eexists].
       - exists []. split; [done | by left]. }
  destruct body as [| b | z | x | l | d]; simpl;
    try (exists []; split; [done | by left]).
  destruct (eq_str (dict_get d (lit "status") VNone) (lit "OK")) eqn:Hs;
    simpl.
  - exfalso. apply Hn. exists response, d.
    split; [done | split; [done | split; [done |]]].
    apply eq_str_true in Hs. unfold dict_get in Hs.
    by destruct (d !! lit "status"); simpl in Hs; subst.
  - eexists [_]. unfold checked. rewrite <- !app_assoc.
    split; [done | right; by eexists].
Qed.

(** X20: "Check API" makes one status request, touches nothing of the main area
    or of the session, and reports "API OK" exactly when the answer is
    healthy: no error status, and a JSON dict whose [status] is [OK]. *)
Theorem sidebar_check_reports i p :
  check_api i = true →
  reset_app i = false →
  ∃ new,
    (sidebar_controls requests_get i p).2 = checked i p new
    ∧ gets new = []
    ∧ (new = [SidebarSuccess (lit "API OK")]
       ↔ healthy (requests_get (backend_url_input i ++ lit "/status") 5)).
Proof.
  intros Hc Hr.
  destruct (classic_healthy
              (requests_get (backend_url_input i ++ lit "/status") 5))
    as [Hh | Hn].
  - exists [SidebarSuccess (lit "API OK")].
    rewrite (sidebar_check_healthy i p Hc Hr Hh). done.
  - destruct (sidebar_check_unhealthy i p Hc Hr Hn) as (new & Hp & Hnew).
    exists new. split; [done |].
    destruct Hnew as [-> | [body ->]]; (split; [done |]);
      split; try done; discriminate.
Qed.

(** X21: the health check of the dashboard accepts the answer of the service:
    when the response carries status 200 and, as its JSON body, what the
    service's [get_status] returns, the sidebar reports "API OK". *)
Theorem sidebar_check_accepts_get_status {vector : Type}
    (t : trace vector) i p response :
  check_api i = true →
  reset_app i = false →
  requests_get (backend_url_input i ++ lit "/status") 5 = Returned response →
  status_code response = 200 →
  json response = (get_status t).1 →
  sidebar_controls requests_get i p
  = (Returned (backend_url_input i),
     checked i p [SidebarSuccess (lit "API OK")]).
Proof.
  intros Hc Hr Hget Hstatus Hjson.
  apply sidebar_check_healthy; [done | done |].
  exists response, {[ lit "status" := VStr (lit "OK") ]}.
  split; [done | split; [| split; [done |]]].
  - unfold ok. by rewrite Hstatus.
  - apply lookup_singleton_eq.
Qed.
End Sidebar.

Section Results.
Context {frame : Type}.
Variable DataFrame : value → value → outcome frame.
Variable value_counts_sum : frame → outcome Z.
Variable label_count : frame → str → outcome Z.
Variable to_csv_bytes : frame → outcome (list N).
Implicit Types (p : page frame).

(** X22: [results_table] shows nothing, and calls nothing of pandas, unless both
    the results and the rows they belong to are there: with results that
    are [None] or an empty list, or rows that are, it returns at once. *)
Theorem results_table_nothing_to_show p (results : value) :
  session_state (main_area p) !! "results" = Some results →
  truth results = false
  ∨ (∃ used_rows,
        session_state (main_area p) !! "used_rows" = Some used_rows
        ∧ truth used_rows = false) →
  results_table DataFrame value_counts_sum label_count to_csv_bytes p
  = (Returned (), p).
Proof.
  intros Hres H. unfold results_table, in_main, get_session.
  unfold mbind, Eff_bind, bind, mret, Eff_ret, ret. simpl.
  rewrite Hres. simpl. destruct p as [w out]. simpl in *.
  destruct H as [Hr | (used & Hu & Hf)].
  - by rewrite Hr.
  - destruct (truth results); [| done]. simpl.
    rewrite Hu. simpl. by rewrite Hf.
Qed.

(** [results_table] leaves the main area, and with it the session, as it
    is, however it ends. *)
Lemma results_table_main_area p :
  main_area
    (results_table DataFrame value_counts_sum label_count to_csv_bytes p).2
  = main_area p.
Proof.
  unfold results_table, in_main, get_session, show, modify, lift.
  unfold mbind, Eff_bind, bind, mret, Eff_ret, ret. cbn.
  destruct (session_state (main_area p) !! "results") as [r |]; [| done].
  cbn. destruct (truth r); cbn; [| done].
  destruct (session_state (main_area p) !! "used_rows") as [u |] eqn:Hu;
    [| done].
  cbn. destruct (truth u); cbn; [| done].
  rewrite Hu. cbn.
  destruct (DataFrame u r) as [df | e]; cbn; [| done].
  destruct (value_counts_sum df); cbn; [| done].
  destruct (label_count df (lit "Optimistic")); cbn; [| done].
  destruct (label_count df (lit "Pessimistic")); cbn; [| done].
  by destruct (to_csv_bytes df).
Qed.
End Results.

(** ** The script as a whole *)

Import Steps.

Section StepRules.
Context {St : Type}.
Implicit Types (R : relation St).

Lemma step_ret {A : Type} R `{!Reflexive R} (a : A) : step R (mret a).
Proof. intros s. simpl. reflexivity. Qed.

Lemma step_raise {A : Type} R `{!Reflexive R} (e : py_exception) :
  step R (raise (A := A) e).
Proof. intros s. simpl. reflexivity. Qed.

Lemma step_lift {A : Type} R `{!Reflexive R} (r : outcome A) :
  step R (lift r).
Proof. intros s. simpl. reflexivity. Qed.

Lemma step_modify R (f : St → St) : (∀ s, R s (f s)) → step R (modify f).
Proof. intros H s. apply H. Qed.

(** Sequencing, for relations that compose: [R1] then [R2] gives [R], and
    [R1] alone gives [R] (the first part may raise). *)
Lemma step_seq {A B : Type} R1 R2 R (m : Eff St A) (k : A → Eff St B) :
  (∀ s s', R1 s s' → R s s') →
  (∀ s s' s'', R1 s s' → R2 s' s'' → R s s'') →
  step R1 m → (∀ a, step R2 (k a)) → step R (m ≫= k).
Proof.
  intros H1 H12 Hm Hk s. unfold mbind, Eff_bind, bind.
  specialize (Hm s). destruct (m s) as [[a | e] s']; simpl in *.
  - eapply H12; [exact Hm | apply Hk].
  - by apply H1.
Qed.

Lemma step_bind {A B : Type} R `{!PreOrder R}
    (m : Eff St A) (k : A → Eff St B) :
  step R m → (∀ a, step R (k a)) → step R (m ≫= k).
Proof.
  apply step_seq; [done |]. intros s s' s'' H1 H2. by transitivity s'.
Qed.

Lemma step_try_except {A : Type} R `{!PreOrder R} (body : Eff St A)
    (catches : py_exception → bool) (handler : py_exception → Eff St A) :
  step R body → (∀ e, step R (handler e)) →
  step R (try_except body catches handler).
Proof.
  intros Hb Hh s. unfold try_except.
  specialize (Hb s). destruct (body s) as [[a | e] s']; simpl in *; [done |].
  destruct (catches e); simpl; [| done].
  transitivity s'; [done | apply Hh].
Qed.

Lemma step_if {A : Type} R (b : bool) (m1 m2 : Eff St A) :
  step R m1 → step R m2 → step R (if b then m1 else m2).
Proof. by destruct b. Qed.

(** [try ... except], for relations that compose. *)
Lemma step_try_seq {A : Type} R1 R2 R (body : Eff St A)
    (catches : py_exception → bool) (handler : py_exception → Eff St A) :
  (∀ s s', R1 s s' → R s s') →
  (∀ s s' s'', R1 s s' → R2 s' s'' → R s s'') →
  step R1 body → (∀ e, step R2 (handler e)) →
  step R (try_except body catches handler).
Proof.
  intros H1 H12 Hb Hh s. unfold try_except.
  specialize (Hb s). destruct (body s) as [[a | e] s']; simpl in *.
  - by apply H1.
  - destruct (catches e); simpl; [| by apply H1].
    eapply H12; [exact Hb | apply Hh].
Qed.

Lemma ret_run {A : Type} (a : A) (s : St) :
  (mret a : Eff St A) s = (Returned a, s).
Proof. reflexivity. Qed.

Lemma bind_run {A B : Type} (m : Eff St A) (k : A → Eff St B) (s : St) :
  (m ≫= k) s
  = match m s with
    | (Returned a, s') => k a s'
    | (Raised e, s') => (Raised e, s')
    end.
Proof. reflexivity. Qed.
End StepRules.

#[global] Instance posting_0_preorder : PreOrder (posting 0).
Proof.
  split.
  - intros w. split; [done | lia].
  - intros w1 w2 w3 [H1 L1] [H2 L2]. split; [tauto | lia].
Qed.

Section WorldSteps.
Variable requests_post : str → value → list (str * str) → Z → outcome Response.
Implicit Types (w : world) (i : inputs).

Lemma posting_weaken (n n' : nat) w w' :
  (n ≤ n')%nat → posting n w w' → posting n' w w'.
Proof. intros Hn [H L]. split; [done | lia]. Qed.

Lemma posting_trans (n n' : nat) w1 w2 w3 :
  posting n w1 w2 → posting n' w2 w3 → posting (n + n') w1 w3.
Proof. intros [H1 L1] [H2 L2]. split; [tauto | lia]. Qed.

Lemma step_set_rows (rows : list str) :
  step (posting 0) (set_session "rows" (of_rows rows)).
Proof.
  apply step_modify. intros w. split; [| simpl; lia].
  intros _. exists rows. simpl. apply lookup_insert_eq.
Qed.

Lemma step_set_other (attr : string) (v : value) :
  attr ≠ "rows" → step (posting 0) (set_session attr v).
Proof.
  intros Ha. apply step_modify. intros w. split; [| simpl; lia].
  intros [rows Hr]. exists rows. simpl. by rewrite lookup_insert_ne.
Qed.

Lemma step_get_session (attr : string) : step (posting 0) (get_session attr).
Proof.
  intros w. unfold get_session.
  destruct (session_state w !! attr); reflexivity.
Qed.

Lemma step_restart (rows : list str) :
  step (posting 0)
    (set_session "rows" (of_rows rows);;
     set_session "results" VNone;;
     set_session "used_rows" VNone).
Proof.
  apply (step_bind _); [apply step_set_rows | intros _].
  apply (step_bind _); [by apply step_set_other | intros _].
  by apply step_set_other.
Qed.

Lemma step_init_session : step (posting 0) init_session.
Proof.
  intros w. rewrite init_session_run. split; [| simpl; lia].
  intros [rows Hr]. exists rows. simpl.
  by apply lookup_union_Some_l.
Qed.

Lemma step_bulk_paste_controls i : step (posting 0) (bulk_paste_controls i).
Proof.
  unfold bulk_paste_controls.
  apply (step_bind _); [| intros _];
    (apply step_if; [apply step_restart | by apply (step_ret _)]).
Qed.

Lemma step_session_rows : step (posting 0) session_rows.
Proof.
  unfold session_rows.
  apply (step_bind _); [apply step_get_session | intros v].
  destruct (as_rows v); [by apply (step_ret _) | by apply (step_raise _)].
Qed.

Lemma step_editable_rows i : step (posting 0) (editable_rows i).
Proof.
  unfold editable_rows.
  apply (step_bind _); [apply step_session_rows | intros rows].
  apply step_set_rows.
Qed.

Lemma step_rows_append_empty : step (posting 0) rows_append_empty.
Proof.
  intros w. unfold rows_append_empty, get_session.
  unfold mbind, Eff_bind, bind.
  destruct (session_state w !! "rows") as [v |] eqn:Hv; [| reflexivity].
  destruct v as [| | | | l |]; try reflexivity.
  split; [| simpl; lia]. intros [rows Hr].
  exists (rows ++ [[]]). simpl. rewrite lookup_insert_eq.
  rewrite Hv in Hr. injection Hr as ->.
  unfold of_rows. by rewrite fmap_app.
Qed.

Lemma step_add_clear_buttons i : step (posting 0) (add_clear_buttons i).
Proof.
  unfold add_clear_buttons.
  apply (step_bind _);
    [apply step_if; [apply step_rows_append_empty | by apply (step_ret _)] |].
  intros _.
  apply (step_bind _);
    [apply step_if; [apply step_restart | by apply (step_ret _)] |].
  intros _. by apply (step_ret _).
Qed.

(** [score] looks up and assigns no attribute but [used_rows] and
    [results]. *)
Lemma score_lookup_other (backend_url : str) (rows : list str) w
    (attr : string) :
  attr ≠ "used_rows" →
  attr ≠ "results" →
  session_state (score requests_post backend_url rows w).2 !! attr
  = session_state w !! attr.
Proof.
  intros Hu Hr.
  destruct (forallb blank rows) eqn:Hb.
  { by rewrite (score_all_blank requests_post backend_url rows w Hb). }
  destruct (requests_post (score_url backend_url)
              (score_data (trimmed_non_blank rows)) score_headers 30)
    as [response | e] eqn:Hpost.
  2: { rewrite (score_post_raises _ backend_url rows w e Hb Hpost).
       by destruct (isinstance_RequestException e). }
  destruct (ok response) eqn:Hok.
  2: { by rewrite (score_error_status _ backend_url rows w response). }
  destruct (json response) as [body | e] eqn:Hjson.
  2: { rewrite (score_json_raises _ backend_url rows w response e
                  Hb Hpost Hok Hjson).
       by destruct (isinstance_RequestException e). }
  destruct body as [| b | z | x | l | d].
  6: { rewrite (score_stores_labels _ backend_url rows w response d
                  Hb Hpost Hok Hjson).
       simpl. by rewrite !lookup_insert_ne. }
  all: by rewrite (score_body_without_get _ backend_url rows w response _
                     Hb Hpost Hok Hjson).
Qed.

Lemma step_score (backend_url : str) (rows : list str) :
  step (posting 1) (score requests_post backend_url rows).
Proof.
  intros w. split.
  - intros [r Hr]. exists r. by rewrite score_lookup_other.
  - destruct (forallb blank rows) eqn:Hb.
    + rewrite (score_all_blank _ backend_url rows w Hb). simpl.
      rewrite posts_app. simpl. rewrite app_nil_r. lia.
    + destruct (score_effects requests_post backend_url rows w Hb)
        as (rest & -> & Hrest).
      rewrite !posts_app, Hrest, !length_app. simpl. lia.
Qed.
End WorldSteps.

Section Main.
Context {frame : Type}.
Variable requests_get : str → Z → outcome Response.
Variable requests_post : str → value → list (str * str) → Z → outcome Response.
Variable DataFrame : value → value → outcome frame.
Variable value_counts_sum : frame → outcome Z.
Variable label_count : frame → str → outcome Z.
Variable to_csv_bytes : frame → outcome (list N).
Implicit Types (p : page frame) (i : inputs).

#[local] Instance within_0_preorder : PreOrder (@within frame 0 0).
Proof.
  split.
  - intros p. split; [reflexivity | lia].
  - intros p1 p2 p3 [H1 L1] [H2 L2].
    split; [by transitivity (main_area p2) | lia].
Qed.

Lemma within_weaken (n m n' m' : nat) p p' :
  (n ≤ n')%nat → (m ≤ m')%nat → @within frame n m p p' → @within frame n' m' p p'.
Proof.
  intros Hn Hm [H L]. split; [by apply (posting_weaken n) | lia].
Qed.

Lemma within_trans (n m n' m' : nat) p1 p2 p3 :
  @within frame n m p1 p2 → @within frame n' m' p2 p3 →
  @within frame (n + n') (m + m') p1 p3.
Proof.
  intros [H1 L1] [H2 L2].
  split; [by apply (posting_trans n n' _ (main_area p2)) | lia].
Qed.

Lemma step_within_ret {A : Type} (n m : nat) (a : A) :
  step (@within frame n m) (mret a).
Proof. intros p. simpl. split; [split; [done | lia] | lia]. Qed.

(** Sequencing adds the bounds. *)
Lemma step_within_bind {A B : Type} (n m n' m' : nat)
    (c : Eff (page frame) A) (k : A → Eff (page frame) B) :
  step (@within frame n m) c → (∀ a, step (@within frame n' m') (k a)) →
  step (@within frame (n + n') (m + m')) (c ≫= k).
Proof.
  apply step_seq.
  - intros p p'. apply within_weaken; lia.
  - intros p1 p2 p3. apply within_trans.
Qed.

Lemma step_in_main {A : Type} (n : nat) (c : Eff world A) :
  step (posting n) c → step (@within frame n 0) (in_main c).
Proof.
  intros H p. unfold in_main. specialize (H (main_area p)).
  destruct (c (main_area p)) as [r w]. simpl in *.
  split; [done | simpl; lia].
Qed.

Lemma in_main_run {A : Type} (c : Eff world A) p :
  in_main c p
  = let '(r, w) := c (main_area p) in
    (r, {| main_area := w; elsewhere := elsewhere p |}).
Proof. reflexivity. Qed.

Lemma gets_app (l1 l2 : list (outside frame)) :
  gets (l1 ++ l2) = gets l1 ++ gets l2.
Proof. apply List.filter_app. Qed.

Lemma step_show (o : outside frame) :
  step (@within frame 0 (if is_get o then 1 else 0)) (show o).
Proof.
  apply step_modify. intros p. split; [reflexivity |]. simpl.
  rewrite gets_app, length_app. simpl. destruct (is_get o); simpl; lia.
Qed.

Lemma step_st_toast (body : str) : step (posting 0) (st_toast body).
Proof.
  apply step_modify. intros w. split; [done |]. simpl.
  rewrite posts_app. simpl. rewrite app_nil_r. lia.
Qed.

Lemma step_sidebar_controls i :
  step (@within frame 0 1) (sidebar_controls requests_get i).
Proof.
  unfold sidebar_controls.
  apply (step_within_bind 0 1 0 0).
  - apply step_if; [| apply step_within_ret].
    apply (step_try_seq (@within frame 0 1) (@within frame 0 0) (@within frame 0 1)).
    + done.
    + intros p1 p2 p3 H1 H2. apply (within_trans 0 1 0 0 _ p2); done.
    + apply (step_within_bind 0 1 0 0); [apply (step_show (Get _ _)) |].
      intros _. apply (step_bind _); [by apply (step_lift _) |].
      intros response. apply (step_bind _).
      * apply step_if; [| by apply (step_ret _)].
        apply (step_bind _); [by apply (step_lift _) | intros body].
        apply (step_bind _); [by apply (step_lift _) | intros status].
        by apply (step_ret _).
      * intros healthy. apply step_if.
        -- apply (step_show (SidebarSuccess _)).
        -- apply (step_show (SidebarError _)).
    + intros e. apply (step_show (SidebarError _)).
  - intros _. apply (step_bind _); [| intros _; by apply (step_ret _)].
    apply step_if; [| by apply (step_ret _)].
    apply (step_in_main 0).
    apply (step_bind _); [apply step_set_rows | intros _].
    apply (step_bind _); [by apply step_set_other | intros _].
    apply (step_bind _); [by apply step_set_other | intros _].
    apply step_st_toast.
Qed.

Lemma step_results_table :
  step (@within frame 0 0)
    (results_table DataFrame value_counts_sum label_count to_csv_bytes).
Proof.
  unfold results_table.
  apply (step_bind _);
    [apply (step_in_main 0), step_get_session | intros results].
  apply (step_bind _).
  { apply step_if; [| by apply (step_ret _)].
    apply (step_bind _);
      [apply (step_in_main 0), step_get_session | intros used_rows].
    by apply (step_ret _). }
  intros both. apply step_if; [by apply (step_ret _) |].
  apply (step_bind _);
    [apply (step_in_main 0), step_get_session | intros used_rows].
  apply (step_bind _); [by apply (step_lift _) | intros df].
  apply (step_bind _); [apply (step_show (Subheader _)) | intros _].
  apply (step_bind _); [apply (step_show (Dataframe _)) | intros _].
  apply (step_bind _); [by apply (step_lift _) | intros total].
  apply (step_bind _); [apply (step_show (Metric _ _)) | intros _].
  apply (step_bind _); [by apply (step_lift _) | intros optimistic].
  apply (step_bind _); [apply (step_show (Metric _ _)) | intros _].
  apply (step_bind _); [by apply (step_lift _) | intros pessimistic].
  apply (step_bind _); [apply (step_show (Metric _ _)) | intros _].
  apply (step_bind _); [by apply (step_lift _) | intros csv_bytes].
  apply (step_show (DownloadButton _ _ _ _)).
Qed.

(** The script after [init_session]. *)
Lemma step_main_after_init i :
  step (@within frame 1 1)
    (backend_url ← sidebar_controls requests_get i;
     in_main (bulk_paste_controls i);;
     in_main (editable_rows i);;
     in_main (add_clear_buttons i);;
     (if score_button i then
        rows ← in_main session_rows;
        in_main (score requests_post backend_url rows);;
        mret ()
      else mret ());;
     results_table DataFrame value_counts_sum label_count to_csv_bytes).
Proof.
  apply (step_within_bind 0 1 1 0); [apply step_sidebar_controls |].
  intros backend_url.
  apply (step_within_bind 0 0 1 0);
    [apply (step_in_main 0), step_bulk_paste_controls | intros _].
  apply (step_within_bind 0 0 1 0);
    [apply (step_in_main 0), step_editable_rows | intros _].
  apply (step_within_bind 0 0 1 0);
    [apply (step_in_main 0), step_add_clear_buttons | intros _].
  apply (step_within_bind 1 0 0 0); [| intros _; apply step_results_table].
  apply step_if.
  - apply (step_within_bind 0 0 1 0);
      [apply (step_in_main 0), step_session_rows | intros rows].
    apply (step_within_bind 1 0 0 0);
      [apply (step_in_main 1), step_score | intros _].
    by apply (step_ret _).
  - apply step_within_ret.
Qed.

Lemma step_main i :
  step (@within frame 1 1)
    (main requests_get requests_post DataFrame value_counts_sum label_count
       to_csv_bytes i).
Proof.
  unfold main.
  apply (step_within_bind 0 0 1 1);
    [apply (step_in_main 0), step_init_session | intros _].
  apply step_main_after_init.
Qed.

(** X23: one run of the script makes at most one scoring request and at most
    one status request, whatever was clicked and however the run ends. *)
Theorem main_requests i p :
  (length
     (posts
        (effects
           (main_area
              (main requests_get requests_post DataFrame value_counts_sum
                 label_count to_csv_bytes i p).2)))
   ≤ length (posts (effects (main_area p))) + 1)%nat
  ∧ (length
       (gets
          (elsewhere
             (main requests_get requests_post DataFrame value_counts_sum
                label_count to_csv_bytes i p).2))
     ≤ length (gets (elsewhere p)) + 1)%nat.
Proof.
  destruct (step_main i p) as [[_ Hposts] Hgets]. done.
Qed.

(** X24: from a session where [rows] is not set, or holds a list of [str], every
    run of the script ends with [rows] holding a list of [str], whatever
    was clicked, typed or pasted and however the run ends: the place where
    the rows are read never meets anything else. *)
Theorem main_rows_typed i p :
  session_state (main_area p) !! "rows" = None ∨ rows_typed (main_area p) →
  rows_typed
    (main_area
       (main requests_get requests_post DataFrame value_counts_sum
          label_count to_csv_bytes i p).2).
Proof.
  intros Hp. unfold main. rewrite bind_run.
  unfold in_main at 1. rewrite init_session_run.
  match goal with
  | |- rows_typed (main_area (?rest ?p1).2) =>
      destruct (step_main_after_init i p1) as [[Ht _] _]
  end.
  apply Ht. unfold rows_typed, with_session. cbn [main_area session_state].
  destruct Hp as [Hnone | [rows Hrows]].
  - eexists. rewrite lookup_union_r by done. reflexivity.
  - exists rows. by apply lookup_union_Some_l.
Qed.

Lemma init_session_ready (w : world) rows :
  session_ready w rows → init_session w = (Returned (), w).
Proof.
  intros (Hrows & [r Hr] & [u Hu]). rewrite init_session_run.
  destruct w as [ss eff]. unfold with_session. simpl in *.
  do 2 f_equal. apply map_eq. intros k. rewrite lookup_union.
  destruct (ss !! k) as [v |] eqn:Hk.
  { by destruct (session_defaults !! k). }
  unfold session_defaults.
  rewrite !lookup_insert_ne, lookup_singleton_ne by congruence. done.
Qed.

(** A run in which no button but, possibly, "Score headlines" was clicked:
    the rows are replaced by what their text inputs return, and then
    scored if asked for. *)
Lemma main_only_score_run i p rows :
  only_score i →
  session_ready (main_area p) rows →
  main requests_get requests_post DataFrame value_counts_sum label_count
    to_csv_bytes i p
  = ((if score_button i then
        in_main (score requests_post (backend_url_input i)
                   (updated_rows i 0 rows));;
        mret ()
      else mret ());;
     results_table DataFrame value_counts_sum label_count to_csv_bytes)
      {| main_area :=
           with_session (main_area p)
             (<["rows" := of_rows (updated_rows i 0 rows)]>
                (session_state (main_area p)));
         elsewhere := elsewhere p |}.
Proof.
  intros (Hc & Hr & Hp & Hl & Ha & Hcl) Hready.
  pose proof Hready as (Hrows & _ & _).
  unfold main, sidebar_controls, bulk_paste_controls, add_clear_buttons.
  rewrite Hc, Hr, Hp, Hl, Ha, Hcl.
  rewrite bind_run, in_main_run, (init_session_ready _ rows Hready).
  cbv beta iota zeta.
  repeat (first [rewrite bind_run | rewrite ret_run | rewrite in_main_run];
          cbv beta iota zeta; cbn [main_area elsewhere]).
  rewrite (editable_rows_run i _ rows Hrows). cbv beta iota zeta.
  repeat (first [rewrite bind_run | rewrite ret_run | rewrite in_main_run];
          cbv beta iota zeta; cbn [main_area elsewhere]).
  destruct (score_button i); [| done].
  repeat (first [rewrite bind_run | rewrite ret_run | rewrite in_main_run];
          cbv beta iota zeta; cbn [main_area elsewhere]).
  rewrite (session_rows_typed _ (updated_rows i 0 rows));
    [done | apply lookup_insert_eq].
Qed.

(** X25: a rerun without interaction changes nothing of the session and shows
    no notice: with no button clicked and every text input returning the
    text of its row, the main area after the run is the main area before
    it. *)
Theorem main_idle_rerun i p rows :
  only_score i →
  score_button i = false →
  session_ready (main_area p) rows →
  (∀ j, (j < length rows)%nat → row_delete i j = false) →
  (∀ j r, rows !! j = Some r → row_text i j r = r) →
  main_area
    (main requests_get requests_post DataFrame value_counts_sum label_count
       to_csv_bytes i p).2
  = main_area p.
Proof.
  intros Hi Hs Hready Hdel Htext.
  rewrite (main_only_score_run i p rows Hi Hready), Hs.
  rewrite bind_run. cbn [mret Eff_ret ret].
  rewrite results_table_main_area. cbn [main_area].
  rewrite updated_rows_idle.
  - destruct Hready as (Hrows & _). rewrite insert_id by done.
    by destruct (main_area p).
  - intros j Hj. apply Hdel. lia.
  - intros j r Hj. by apply Htext.
Qed.

(** X26: "Score headlines" sends what the text inputs hold in this very run, to
    the address typed in the sidebar: the request added is for the trimmed
    non-blank ones of the rows as [editable_rows] has just updated them,
    and none is added when all of them are blank. *)
Theorem main_scores_edited_rows i p rows :
  only_score i →
  score_button i = true →
  session_ready (main_area p) rows →
  posts
    (effects
       (main_area
          (main requests_get requests_post DataFrame value_counts_sum
             label_count to_csv_bytes i p).2))
  = posts (effects (main_area p))
    ++ if forallb blank (updated_rows i 0 rows) then []
       else [score_request (backend_url_input i)
               (trimmed_non_blank (updated_rows i 0 rows))].
Proof.
  intros Hi Hs Hready.
  rewrite (main_only_score_run i p rows Hi Hready), Hs.
  set (rows' := updated_rows i 0 rows).
  set (w1 := with_session _ _).
  assert (posts (effects (score requests_post (backend_url_input i) rows' w1).2)
          = posts (effects (main_area p))
            ++ if forallb blank rows' then []
               else [score_request (backend_url_input i)
                       (trimmed_non_blank rows')]) as Hposts.
  { destruct (forallb blank rows') eqn:Hb.
    - rewrite (score_all_blank _ _ rows' w1 Hb). simpl.
      rewrite posts_app. done.
    - destruct (score_effects requests_post (backend_url_input i) rows' w1 Hb)
        as (rest & -> & Hrest).
      rewrite !posts_app, Hrest, posts_requested, app_nil_r. done. }
  rewrite !bind_run. unfold in_main at 1. cbn [main_area elsewhere].
  destruct (score requests_post (backend_url_input i) rows' w1)
    as [[labels | e] w2]; cbn [snd] in Hposts.
  - cbn [mret Eff_ret ret]. by rewrite results_table_main_area.
  - done.
Qed.
End Main.

(** ** The further properties on concrete runs *)

(** [score] against a service that answers with labels: the rows of the
    session are as before. *)
Lemma score_keeps_other_attributes_witness :
  session_state
    (score SamplePage.answers_labels (lit "http://localhost:8013")
       SamplePage.first_rows SamplePage.ready_world).2 !! "rows"
  = session_state SamplePage.ready_world !! "rows".
Proof.
  apply (score_keeps_other_attributes SamplePage.answers_labels
           (lit "http://localhost:8013") SamplePage.first_rows
           SamplePage.ready_world "rows"); discriminate.
Defined.

(** [score] against a service that answers with a dict without labels. *)
Lemma score_missing_labels_key_witness :
  score SamplePage.answers_no_labels (lit "http://localhost:8013")
    SamplePage.first_rows SamplePage.ready_world
  = (Returned (VList []),
     {| session_state :=
          <["results" := VList []]>
            (<["used_rows" :=
                 VList (VStr <$> trimmed_non_blank SamplePage.first_rows)]>
               (session_state SamplePage.ready_world));
        effects :=
          effects SamplePage.ready_world
          ++ requested (lit "http://localhost:8013") SamplePage.first_rows
          ++ [Toast (lit "Scored")] |}).
Proof.
  apply (score_missing_labels_key SamplePage.answers_no_labels
           (lit "http://localhost:8013") SamplePage.first_rows
           SamplePage.ready_world
           {| status_code := 200; text := []; json := Returned (VDict ∅) |}
           ∅); reflexivity.
Defined.

(** [score] against a service that answers with a list. *)
Lemma score_body_not_a_dict_witness :
  (∃ message,
      (score SamplePage.answers_list (lit "http://localhost:8013")
         SamplePage.first_rows SamplePage.ready_world).1
      = Raised (AttributeError message))
  ∧ session_state
      (score SamplePage.answers_list (lit "http://localhost:8013")
         SamplePage.first_rows SamplePage.ready_world).2
    = session_state SamplePage.ready_world
  ∧ errors
      (effects
         (score SamplePage.answers_list (lit "http://localhost:8013")
            SamplePage.first_rows SamplePage.ready_world).2)
    = errors (effects SamplePage.ready_world).
Proof.
  apply (score_body_not_a_dict SamplePage.answers_list
           (lit "http://localhost:8013") SamplePage.first_rows
           SamplePage.ready_world
           {| status_code := 200; text := [];
              json := Returned (VList [VStr (lit "Neutral")]) |}
           (VList [VStr (lit "Neutral")]));
    try reflexivity.
  intros d. discriminate.
Defined.

(** A paste of two lines around a blank one. *)
Lemma bulk_paste_replace_rows_witness :
  ∃ lines : list str,
    bulk_paste_controls
      (SamplePage.run_inputs "Replace from paste" SamplePage.two_lines None)
      SamplePage.ready_world
    = (Returned (),
       with_session SamplePage.ready_world
         (restarted lines (session_state SamplePage.ready_world)))
    ∧ lines = trimmed_non_blank (splitlines SamplePage.two_lines)
    ∧ Forall trimmed lines
    ∧ Forall single_line lines.
Proof.
  apply (bulk_paste_replace_rows
           (SamplePage.run_inputs "Replace from paste" SamplePage.two_lines
              None)
           SamplePage.ready_world); reflexivity.
Defined.


(** A run in which nothing is deleted. *)
Lemma editable_rows_edits_witness :
  ∃ rows' : list str,
    editable_rows (SamplePage.run_inputs "" [] None) SamplePage.ready_world
    = (Returned (),
       with_session SamplePage.ready_world
         (<["rows" := of_rows rows']>
            (session_state SamplePage.ready_world)))
    ∧ length rows' = length SamplePage.first_rows
    ∧ ∀ (j : nat) (r : str), SamplePage.first_rows !! j = Some r →
        rows' !! j = Some r.
Proof.
  apply (editable_rows_edits (SamplePage.run_inputs "" [] None)
           SamplePage.ready_world SamplePage.first_rows).
  - reflexivity.
  - intros j _. reflexivity.
Defined.

(** The delete button of the second row. *)
Lemma editable_rows_delete_one_witness :
  editable_rows (SamplePage.run_inputs "" [] (Some 1%nat))
    SamplePage.ready_world
  = (Returned (),
     with_session SamplePage.ready_world
       (<["rows" := of_rows (delete 1%nat SamplePage.first_rows)]>
          (session_state SamplePage.ready_world))).
Proof.
  apply (editable_rows_delete_one (SamplePage.run_inputs "" [] (Some 1%nat))
           SamplePage.ready_world SamplePage.first_rows 1).
  - reflexivity.
  - intros j _. simpl. apply bool_decide_ext. split; congruence.
  - intros j r _. reflexivity.
Defined.

Lemma add_headline_not_scored_witness :
  add_clear_buttons (SamplePage.run_inputs "Add headline" [] None)
    SamplePage.ready_world
  = (Returned (true, false),
     with_session SamplePage.ready_world
       (<["rows" := of_rows (SamplePage.first_rows ++ [[]])]>
          (session_state SamplePage.ready_world)))
  ∧ trimmed_non_blank (SamplePage.first_rows ++ [[]])
    = trimmed_non_blank SamplePage.first_rows.
Proof.
  apply (add_headline_not_scored
           (SamplePage.run_inputs "Add headline" [] None)
           SamplePage.ready_world SamplePage.first_rows); reflexivity.
Defined.

Lemma clear_all_restarts_witness :
  add_clear_buttons (SamplePage.run_inputs "Clear all" [] None)
    SamplePage.ready_world
  = (Returned (false, true),
     with_session SamplePage.ready_world
       (restarted [] (session_state SamplePage.ready_world))).
Proof.
  apply (clear_all_restarts (SamplePage.run_inputs "Clear all" [] None)
           SamplePage.ready_world).
  - reflexivity.
  - left. reflexivity.
Defined.

(** "Check API" against a service that answers as [get_status] does. *)
Lemma sidebar_check_reports_witness :
  ∃ new,
    (sidebar_controls SamplePage.status_ok
       (SamplePage.run_inputs "Check API" [] None) SamplePage.ready_page).2
    = checked (SamplePage.run_inputs "Check API" [] None)
        SamplePage.ready_page new
    ∧ gets new = []
    ∧ (new = [SidebarSuccess (lit "API OK")]
       ↔ healthy
           (SamplePage.status_ok (lit "http://localhost:8013" ++ lit "/status")
              5)).
Proof.
  apply (sidebar_check_reports SamplePage.status_ok
           (SamplePage.run_inputs "Check API" [] None) SamplePage.ready_page);
    reflexivity.
Defined.

Lemma sidebar_check_accepts_get_status_witness :
  sidebar_controls SamplePage.status_ok
    (SamplePage.run_inputs "Check API" [] None) SamplePage.ready_page
  = (Returned (lit "http://localhost:8013"),
     checked (SamplePage.run_inputs "Check API" [] None) SamplePage.ready_page
       [SidebarSuccess (lit "API OK")]).
Proof.
  apply (sidebar_check_accepts_get_status SamplePage.status_ok
           (vector := Z) []
           (SamplePage.run_inputs "Check API" [] None) SamplePage.ready_page
           {| status_code := 200; text := [];
              json := (get_status (vector := Z) []).1 |});
    reflexivity.
Defined.

(** A fresh session has results that are [None]: no table. *)
Lemma results_table_nothing_to_show_witness :
  results_table SamplePage.DataFrame SamplePage.value_counts_sum
    SamplePage.label_count SamplePage.to_csv_bytes SamplePage.ready_page
  = (Returned (), SamplePage.ready_page).
Proof.
  apply (results_table_nothing_to_show SamplePage.DataFrame
           SamplePage.value_counts_sum SamplePage.label_count
           SamplePage.to_csv_bytes SamplePage.ready_page VNone).
  - reflexivity.
  - left. reflexivity.
Defined.

(** The first run of a session, with a click on "Score headlines". *)
Lemma main_rows_typed_witness :
  rows_typed
    (main_area
       (main SamplePage.status_ok SamplePage.answers_labels
          SamplePage.DataFrame SamplePage.value_counts_sum
          SamplePage.label_count SamplePage.to_csv_bytes
          (SamplePage.run_inputs "Score headlines" [] None)
          SamplePage.blank_page).2).
Proof.
  apply (main_rows_typed SamplePage.status_ok SamplePage.answers_labels
           SamplePage.DataFrame SamplePage.value_counts_sum
           SamplePage.label_count SamplePage.to_csv_bytes
           (SamplePage.run_inputs "Score headlines" [] None)
           SamplePage.blank_page).
  left. reflexivity.
Defined.

(** A rerun of a fresh session in which nothing was clicked. *)
Lemma main_idle_rerun_witness :
  main_area
    (main SamplePage.status_ok SamplePage.answers_labels
       SamplePage.DataFrame SamplePage.value_counts_sum
       SamplePage.label_count SamplePage.to_csv_bytes
       (SamplePage.run_inputs "" [] None) SamplePage.ready_page).2
  = main_area SamplePage.ready_page.
Proof.
  apply (main_idle_rerun SamplePage.status_ok SamplePage.answers_labels
           SamplePage.DataFrame SamplePage.value_counts_sum
           SamplePage.label_count SamplePage.to_csv_bytes
           (SamplePage.run_inputs "" [] None) SamplePage.ready_page
           SamplePage.first_rows).
  - repeat split; reflexivity.
  - reflexivity.
  - split; [reflexivity | split; eexists; reflexivity].
  - intros j _. reflexivity.
  - intros j r _. reflexivity.
Defined.

(** A click on "Score headlines" in a fresh session. *)
Lemma main_scores_edited_rows_witness :
  posts
    (effects
       (main_area
          (main SamplePage.status_ok SamplePage.answers_labels
             SamplePage.DataFrame SamplePage.value_counts_sum
             SamplePage.label_count SamplePage.to_csv_bytes
             (SamplePage.run_inputs "Score headlines" [] None)
             SamplePage.ready_page).2))
  = posts (effects (main_area SamplePage.ready_page))
    ++ if forallb blank
            (updated_rows (SamplePage.run_inputs "Score headlines" [] None)
               0 SamplePage.first_rows)
       then []
       else [score_request
               (backend_url_input
                  (SamplePage.run_inputs "Score headlines" [] None))
               (trimmed_non_blank
                  (updated_rows
                     (SamplePage.run_inputs "Score headlines" [] None)
                     0 SamplePage.first_rows))].
Proof.
  apply (main_scores_edited_rows SamplePage.status_ok
           SamplePage.answers_labels SamplePage.DataFrame
           SamplePage.value_counts_sum SamplePage.label_count
           SamplePage.to_csv_bytes
           (SamplePage.run_inputs "Score headlines" [] None)
           SamplePage.ready_page SamplePage.first_rows).
  - repeat split; reflexivity.
  - reflexivity.
  - split; [reflexivity | split; eexists; reflexivity].
Defined.
